(** * Rooted AI: the chat front end and the memory pipeline it talks to

    The development has these parts.

    - [Dom] and [Bubble]: the [MessageBubble] component of
      [frontend/src/MessageBubble.jsx], as a function from its props and its
      one piece of state ([showExplain]) to a tree of elements.
    - [Chat]: [handleSend] of the [App] component, as a small program over
      the component's state with one suspension point (the [await]).
    - [Backend]: a turn of the retrieval-augmented pipeline (vector search,
      scoping, generation, explanation) as the calls it makes to its
      services.  Its code is not part of the sources; it is modelled from
      the specification.
    - [App]: the rest of the chat screen: the form's disabled flags,
      [handleLogout], the session gate and the messages area with the
      placeholder and [TypingIndicator].
    - [Auth]: [handleAuth] of [AuthPage] and what the page shows. *)

From stdpp Require Import base strings list gmap.

Set Warnings "-register-all".

(** ** Elements *)

Module Dom.

(** The only handler in [MessageBubble] is [() => setShowExplain(...)]. *)
Inductive Action : Type :=
| SetShowExplain (b : bool).

Record Attrs : Type := mkAttrs {
  className : string;
  key : option nat;
  onClick : option Action
}.

Inductive Node : Type :=
| Elem (tag : string) (attrs : Attrs) (children : list Node)
| Text (s : string).

Definition cls (c : string) : Attrs :=
  {| className := c; key := None; onClick := None |}.

(** [{cond && <x/>}]: React renders nothing for [false]. *)
Definition when (cond : bool) (n : Node) : list Node :=
  if cond then [n] else [].

Definition tag_of (n : Node) : string :=
  match n with Elem t _ _ => t | Text _ => "" end.

Definition children_of (n : Node) : list Node :=
  match n with Elem _ _ cs => cs | Text _ => [] end.

(** The node and everything below it, in document order. *)
Fixpoint descendants (n : Node) : list Node :=
  n :: match n with
       | Elem _ _ cs => flat_map descendants cs
       | Text _ => []
       end.

(** The text a reader sees inside a node. *)
Fixpoint text_content (n : Node) : string :=
  match n with
  | Text s => s
  | Elem _ _ cs => fold_right (fun c acc => text_content c +:+ acc) "" cs
  end.

Definition is_tag (t : string) (n : Node) : bool :=
  String.eqb (tag_of n) t.

End Dom.

(** ** Messages *)

(** The explanation payload is a JS object read by property name: a finite
    map from a memory class name (["stem"], ["branch"], whatever else the
    server sends) to the array of items of that class, each item a string
    (the shape [.map] and [<li>{m}</li>] are written for).  A property that
    is missing, [undefined] or [null] is an absent key. *)
Abbreviation Explanation := (gmap string (list string)).

Record Message : Type := mkMessage {
  role : string;
  text : string;
  explanation : option Explanation
}.

(** ** MessageBubble *)

Module Bubble.
Import Dom.

(** [a?.length] *)
Definition opt_length (a : option (list string)) : option nat :=
  length <$> a.

(** [x > 0], where [undefined > 0] is [false]. *)
Definition gt0 (x : option nat) : bool :=
  match x with
  | Some n => negb (Nat.eqb n 0)
  | None => false
  end.

(** [a.map((m, i) => f(m, i))]; it is only reached behind
    [a?.length > 0], where [a] is an array. *)
Definition array_map (f : nat -> string -> Node) (a : option (list string))
  : list Node :=
  match a with
  | Some l => imap f l
  | None => []
  end.

Definition isUser (message : Message) : bool :=
  String.eqb (role message) "user".

(** [message.explanation || {}] *)
Definition memoryData (message : Message) : Explanation :=
  match explanation message with
  | Some e => e
  | None => ∅
  end.

Definition hasMemory (message : Message) : bool :=
  gt0 (opt_length (memoryData message !! "stem"))
  || gt0 (opt_length (memoryData message !! "branch")).

Definition li (i : nat) (m : string) : Node :=
  Elem "li" {| className := ""; key := Some i; onClick := None |} [Text m].

(** The avatar shown beside a reply; [Leaf] is the icon component (its
    [size] prop plays no part here). *)
Definition avatar : Node :=
  Elem "div" (cls "flex-shrink-0 mr-3 mt-1")
    [Elem "div" (cls "w-8 h-8 rounded-full bg-[#2d6a4f]/20 flex items-center justify-center border border-[#2d6a4f]/50")
       [Elem "Leaf" (cls "text-[#40916c]") []]].

Definition toggleButton (showExplain : bool) : Node :=
  Elem "button"
    {| className := "text-xs text-[#52b788] hover:text-[#74c69d] hover:underline flex items-center gap-1";
       key := None;
       onClick := Some (SetShowExplain (negb showExplain)) |}
    [Text (if showExplain then "Hide Context" else "Why did I say this?")].

Definition toggle (showExplain : bool) : Node :=
  Elem "div" (cls "mt-1 ml-1 opacity-0 group-hover:opacity-100 transition-opacity duration-300")
    [toggleButton showExplain].

Definition panelHeading : string :=
  "mb-2 text-[#a0a0a0] font-medium uppercase tracking-wider text-[10px]".

Definition panel (memoryData : Explanation) : Node :=
  Elem "div" (cls "mt-2 ml-1 p-3 bg-[#111312] border border-[#2d6a4f]/30 rounded-lg text-xs animate-fade-in")
    ([Elem "div" (cls panelHeading) [Text "Memory Context Used"]]
     ++ when (gt0 (opt_length (memoryData !! "stem")))
          (Elem "div" (cls "mb-2")
             [Elem "span" (cls "text-[#40916c] font-bold") [Text "STEM (Identity):"];
              Elem "ul" (cls "list-disc list-inside mt-0.5 text-gray-400 pl-1 space-y-0.5")
                (array_map li (memoryData !! "stem"))])
     ++ when (gt0 (opt_length (memoryData !! "branch")))
          (Elem "div" (cls "mb-0")
             [Elem "span" (cls "text-[#52b788] font-bold") [Text "BRANCH (Pattern):"];
              Elem "ul" (cls "list-disc list-inside mt-0.5 text-gray-400 pl-1 space-y-0.5")
                (array_map li (memoryData !! "branch"))])).

(** The component: its props and the current value of its state.  Class
    lists are written with single spaces where the template literal breaks
    the line. *)
Definition MessageBubble (message : Message) (showExplain : bool) : Node :=
  Elem "div"
    (cls ("flex w-full mb-6 "
          +:+ (if isUser message then "justify-end" else "justify-start")
          +:+ " animate-fade-in group"))
    (when (negb (isUser message)) avatar
     ++ [Elem "div" (cls "flex flex-col max-w-[85%] md:max-w-[70%]")
           ([Elem "div"
               (cls ("px-5 py-3.5 text-[0.95rem] leading-relaxed shadow-sm relative "
                     +:+ (if isUser message
                          then "bg-[#2d6a4f] text-white rounded-2xl rounded-tr-sm"
                          else "bg-[#1a1d1c] border border-white/5 text-gray-200 rounded-2xl rounded-tl-sm")))
               [Text (text message)]]
            ++ when (negb (isUser message) && hasMemory message)
                 (toggle showExplain)
            ++ when (showExplain && negb (isUser message) && hasMemory message)
                 (panel (memoryData message)))]).

(** *** What is on screen *)

(** The toggle is the component's only button. *)
Definition buttons (n : Node) : list Node :=
  List.filter (is_tag "button") (descendants n).

Definition has_toggle (n : Node) : bool :=
  negb (Nat.eqb (length (buttons n)) 0).

(** The panel is the box that opens with the heading "Memory Context Used". *)
Definition is_panel (n : Node) : bool :=
  match children_of n with
  | Elem "div" a [Text t] :: _ =>
      String.eqb (className a) panelHeading
      && String.eqb t "Memory Context Used"
  | _ => false
  end.

Definition panels (n : Node) : list Node :=
  List.filter is_panel (descendants n).

Definition has_panel (n : Node) : bool :=
  negb (Nat.eqb (length (panels n)) 0).

(** A section of the panel: a label followed by a bulleted list.  The
    result is the label with the text of each bullet, top to bottom. *)
Definition section_of (n : Node) : option (string * list string) :=
  match n with
  | Elem "div" _ [Elem "span" _ [Text label]; Elem "ul" _ items] =>
      Some (label, text_content <$> List.filter (is_tag "li") items)
  | _ => None
  end.

Definition sections (p : Node) : list (string * list string) :=
  omap section_of (children_of p).

(** Every bullet anywhere in a node. *)
Definition bullets (n : Node) : list string :=
  text_content <$> List.filter (is_tag "li") (descendants n).

(** Clicking the toggle runs its handler; without a toggle there is
    nothing to click and the state stays. *)
Definition click_toggle (message : Message) (showExplain : bool) : bool :=
  match buttons (MessageBubble message showExplain) with
  | Elem _ {| onClick := Some (SetShowExplain b) |} _ :: _ => b
  | _ => showExplain
  end.

(** *** Vocabulary for statements about the payload *)

(** "The explanation object has a non-empty [k] array." *)
Definition nonempty_array (e : option Explanation) (k : string) : Prop :=
  exists (e' : Explanation) (items : list string),
    e = Some e' /\ e' !! k = Some items /\ items <> [].

(** The items of class [k], none when the array is missing. *)
Definition items_of (e : option Explanation) (k : string) : list string :=
  match e with
  | Some e' => default [] (e' !! k)
  | None => []
  end.

(** A labelled section, present only for a non-empty array. *)
Definition labelled (label : string) (items : list string)
  : list (string * list string) :=
  match items with
  | [] => []
  | _ :: _ => [(label, items)]
  end.

End Bubble.

(** ** App: sending a message *)

Module Chat.

(** A character of the model is one code unit below 256.  These are the
    code units in that range that [String.prototype.trim] strips
    (WhiteSpace and LineTerminator): TAB, LF, VT, FF, CR, SP and NBSP.  The
    space characters above U+00FF are outside the model. *)
Definition is_white_space (c : Ascii.ascii) : bool :=
  let n := Ascii.nat_of_ascii c in
  (Nat.leb 9 n && Nat.leb n 13) || Nat.eqb n 32 || Nat.eqb n 160.

Fixpoint trimStart (s : string) : string :=
  match s with
  | EmptyString => EmptyString
  | String c rest => if is_white_space c then trimStart rest else s
  end.

Fixpoint trimEnd (s : string) : string :=
  match s with
  | EmptyString => EmptyString
  | String c rest =>
      match trimEnd rest with
      | EmptyString => if is_white_space c then EmptyString else String c EmptyString
      | kept => String c kept
      end
  end.

Definition trim (s : string) : string := trimEnd (trimStart s).

(** A JS string is falsy exactly when it is empty. *)
Definition truthy (s : string) : bool := negb (String.eqb s "").

Record Session : Type := mkSession {
  access_token : string
}.

(** The state of [App] ([useState] cells). *)
Record AppState : Type := mkAppState {
  session : option Session;
  input : string;
  messages : list Message;
  loading : bool
}.

Definition setMessages (f : list Message -> list Message) (st : AppState)
  : AppState :=
  {| session := session st; input := input st;
     messages := f (messages st); loading := loading st |}.

Definition setInput (v : string) (st : AppState) : AppState :=
  {| session := session st; input := v;
     messages := messages st; loading := loading st |}.

Definition setLoading (v : bool) (st : AppState) : AppState :=
  {| session := session st; input := input st;
     messages := messages st; loading := v |}.

(** What [sendMessage] (module [./api], outside the sources) answers with. *)
Record Data : Type := mkData {
  response : string;
  memory_used : option Explanation
}.

Inductive Outcome : Type :=
| Resolved (data : Data)
| Rejected.

Inductive Effect : Type :=
| PreventDefault
| ConsoleError.

(** An async handler: state updates and effects in program order, and
    suspension at [await sendMessage(text, token)]. *)
Inductive Async : Type :=
| Done
| Do (e : Effect) (k : Async)
| SetState (f : AppState -> AppState) (k : Async)
| Await (text token : string) (k : Outcome -> Async).

Definition errorMessage : Message :=
  {| role := "ai";
     text := "I'm having trouble connecting to my memory patterns right now.";
     explanation := None |}.

(** [finally { setLoading(false); }] *)
Definition finally : Async :=
  SetState (setLoading false) Done.

(** [catch (error) { console.error(...); setMessages(...) }] *)
Definition catch : Async :=
  Do ConsoleError
    (SetState (setMessages (fun prev => prev ++ [errorMessage])) finally).

(** [handleSend], closed over the [input] and [session] of the render the
    form was submitted from. *)
Definition handleSend (input : string) (session : option Session) : Async :=
  Do PreventDefault
    (if negb (truthy (trim input)) then Done
     else
       let userMsg := {| role := "user"; text := input; explanation := None |} in
       SetState (setMessages (fun prev => prev ++ [userMsg]))
       (SetState (setInput "")
       (SetState (setLoading true)
          match session with
          | None => catch (* reading [access_token] of [null] throws *)
          | Some s =>
              Await (text userMsg) (access_token s)
                (fun outcome =>
                   match outcome with
                   | Resolved data =>
                       let aiMsg := {| role := "ai";
                                        text := response data;
                                        explanation := memory_used data |} in
                       SetState (setMessages (fun prev => prev ++ [aiMsg]))
                         finally
                   | Rejected => catch
                   end)
          end))).

(** *** Running a handler *)

Record World : Type := mkWorld {
  state : AppState;
  requests : list (string * string);
  effects : list Effect
}.

Definition world_of (st : AppState) : World :=
  {| state := st; requests := []; effects := [] |}.

(** Run to completion against a server [sendMessage]. *)
Fixpoint run (sendMessage : string -> string -> Outcome) (p : Async)
    (w : World) : World :=
  match p with
  | Done => w
  | Do e k =>
      run sendMessage k
        {| state := state w; requests := requests w;
           effects := effects w ++ [e] |}
  | SetState f k =>
      run sendMessage k
        {| state := f (state w); requests := requests w;
           effects := effects w |}
  | Await text token k =>
      run sendMessage (k (sendMessage text token))
        {| state := state w; requests := requests w ++ [(text, token)];
           effects := effects w |}
  end.

(** Run up to the suspension point: the state reached, and the pending
    request with what happens when it settles. *)
Fixpoint advance (p : Async) (st : AppState)
  : AppState * option (string * string * (Outcome -> Async)) :=
  match p with
  | Done => (st, None)
  | Do _ k => advance k st
  | SetState f k => advance k (f st)
  | Await text token k => (st, Some (text, token, k))
  end.

End Chat.

(** ** The memory pipeline behind [sendMessage] *)

Module Backend.

(** Modelled from the spec: the taxonomy of the tree memory (the server's
    code is not in the sources).  STEM holds identity facts, BRANCH
    habitual or pattern facts, LEAF episodic events. *)
Inductive Tag : Type :=
| STEM
| BRANCH
| LEAF.

Section Pipeline.

(** The embedding model and the scoping policy (which tree positions a
    query reaches); the server's code for them is not in the sources. *)
Variable Embedding : Type.
Variable embed : string -> Embedding.
Variable in_scope : string -> Tag -> bool.

(** Modelled from the spec: a row of the memory store, "memory items with
    their tag, embedding, and timestamps" (the store is not in the
    sources). *)
Record MemoryItem : Type := mkMemoryItem {
  content : string;
  tag : Tag;
  embedding : Embedding;
  created_at : nat
}.

(** Modelled from the spec: the two services a turn calls, which are
    external collaborators: the Vector Index ("nearest-neighbor lookup over
    embeddings", here over the rows of a store) answers with hits, the
    language model answers with text. *)
Inductive Call : Type -> Type :=
| Search (query : Embedding) (store : list MemoryItem)
  : Call (list MemoryItem)
| Generate (query : string) (context : list MemoryItem) : Call string.

(** Modelled from the spec: a server routine (absent from the sources) as
    the calls it makes, each continued with the service's answer. *)
Inductive Prog (A : Type) : Type :=
| Ret (a : A)
| Vis (R : Type) (c : Call R) (k : R -> Prog A).

Arguments Ret {A} a.
Arguments Vis {A R} c k.

(** Modelled from the spec: sequencing of server routines. *)
Fixpoint bind {A B : Type} (p : Prog A) (f : A -> Prog B) : Prog B :=
  match p with
  | Ret a => f a
  | Vis c k => Vis c (fun r => bind (k r) f)
  end.

Notation "'let*' x ':=' m 'in' k" := (bind m (fun x => k))
  (at level 10, x name, m at level 100, k at level 200).

(** Modelled from the spec: the Retrieval Scoper, which restricts the
    vector search results to the tree positions relevant to the query. *)
Definition scope (query : string) (hits : list MemoryItem)
  : list MemoryItem :=
  List.filter (fun m => in_scope query (tag m)) hits.

(** Modelled from the spec: the Explainability Packager's selection of the
    items of one class among those used. *)
Definition contents_of (t : Tag) (context : list MemoryItem) : list string :=
  content <$> List.filter
                (fun m => match tag m, t with
                          | STEM, STEM | BRANCH, BRANCH | LEAF, LEAF => true
                          | _, _ => false
                          end) context.

(** Modelled from the spec: the Explainability Packager, "which STEM/BRANCH
    items were used", in the shape the UI reads. *)
Definition package (context : list MemoryItem) : Explanation :=
  <["stem" := contents_of STEM context]>
    (<["branch" := contents_of BRANCH context]> ∅).

(** Modelled from the spec: one conversational turn of the
    retrieval-augmented pipeline: the stored context is looked up, scoped,
    and the answer is generated from it. *)
Definition respond (query : string) (store : list MemoryItem)
  : Prog Chat.Data :=
  Vis (Search (embed query) store)
    (fun hits =>
       let context := scope query hits in
       Vis (Generate query context)
         (fun answer =>
            Ret {| Chat.response := answer;
                   Chat.memory_used := Some (package context) |})).

(** Modelled from the spec: a conversation, the turns in order, each
    against the store as it is at that turn. *)
Fixpoint converse (turns : list (string * list MemoryItem))
  : Prog (list Chat.Data) :=
  match turns with
  | [] => Ret []
  | (query, store) :: rest =>
      let* reply := respond query store in
      let* replies := converse rest in
      Ret (reply :: replies)
  end.

(** *** Running a routine against the services *)

(** Modelled from the spec: one call as it happened, with the answer the
    service gave. *)
Inductive Entry : Type :=
| SearchCall (query : Embedding) (store hits : list MemoryItem)
| GenerateCall (query : string) (context : list MemoryItem) (answer : string).

(** Modelled from the spec: the record of a call and its answer. *)
Definition entry {R : Type} (c : Call R) : R -> Entry :=
  match c in Call R' return R' -> Entry with
  | Search query store => fun hits => SearchCall query store hits
  | Generate query context => fun answer => GenerateCall query context answer
  end.

(** Modelled from the spec: a routine run against services [serve]; the
    result comes with the calls that reached the services, in the order
    they were made.  The record is kept here, by the runner, not by the
    routine. *)
Fixpoint run {A : Type} (serve : forall R : Type, Call R -> R) (p : Prog A)
  : A * list Entry :=
  match p with
  | Ret a => (a, [])
  | Vis c k =>
      let r := serve _ c in
      let '(a, log) := run serve (k r) in
      (a, entry c r :: log)
  end.

(** Modelled from the spec: "retrieving relevant stored context before
    generating a response", read on the calls of a conversation.  Every
    call to the language model belongs to a turn and comes directly after
    that turn's search: the search was made for the turn's query over the
    turn's store, the context given to the model is the scoped answer of
    that very search, and the turn's reply carries what the model
    answered. *)
Definition retrieval_precedes_generation
    (serve : forall R : Type, Call R -> R)
    (turns : list (string * list MemoryItem))
    (replies : list Chat.Data) (log : list Entry) : Prop :=
  forall (j : nat) (q : string) (ctx : list MemoryItem) (answer : string),
    log !! j = Some (GenerateCall q ctx answer) ->
    exists (n : nat) (store hits : list MemoryItem),
      j = S (2 * n)
      /\ turns !! n = Some (q, store)
      /\ log !! (2 * n) = Some (SearchCall (embed q) store hits)
      /\ hits = serve _ (Search (embed q) store)
      /\ ctx = scope q hits
      /\ answer = serve _ (Generate q ctx)
      /\ Chat.response <$> replies !! n = Some answer.

(** Modelled from the spec: every turn reaches the language model. *)
Definition every_turn_generates
    (turns : list (string * list MemoryItem)) (log : list Entry) : Prop :=
  forall (n : nat) (q : string) (store : list MemoryItem),
    turns !! n = Some (q, store) ->
    exists (ctx : list MemoryItem) (answer : string),
      log !! S (2 * n) = Some (GenerateCall q ctx answer).

End Pipeline.

Arguments mkMemoryItem {Embedding} content tag embedding created_at.
Arguments content {Embedding} m.
Arguments tag {Embedding} m.
Arguments embedding {Embedding} m.
Arguments created_at {Embedding} m.
Arguments Search {Embedding} query store.
Arguments Generate {Embedding} query context.
Arguments Ret {Embedding A} a.
Arguments Vis {Embedding A R} c k.
Arguments bind {Embedding A B} p f.
Arguments SearchCall {Embedding} query store hits.
Arguments GenerateCall {Embedding} query context answer.
Arguments entry {Embedding R} c _.
Arguments run {Embedding A} serve p.
Arguments scope {Embedding} in_scope query hits.
Arguments contents_of {Embedding} t context.
Arguments package {Embedding} context.
Arguments respond {Embedding} embed in_scope query store.
Arguments converse {Embedding} embed in_scope turns.
Arguments retrieval_precedes_generation
  {Embedding} embed in_scope serve turns replies log.
Arguments every_turn_generates {Embedding} turns log.

End Backend.

(** ** App: the rest of the chat screen *)

Module App.
Import Dom Bubble Chat.


(** [setSession], as called from [getSession().then] and from the
    [onAuthStateChange] subscription. *)
Definition setSession (s : option Session) (st : AppState) : AppState :=
  {| session := s; input := input st;
     messages := messages st; loading := loading st |}.

(** The text input: [disabled={loading}]. *)
Definition inputDisabled (st : AppState) : bool := loading st.

(** The send button: [disabled={loading || !input.trim()}]. *)
Definition submitDisabled (st : AppState) : bool :=
  loading st || negb (truthy (trim (input st))).

(** [if (!session) return <AuthPage .../>] *)
Definition showsAuthPage (st : AppState) : bool :=
  match session st with
  | None => true
  | Some _ => false
  end.

(** How [await supabase.auth.signOut()] ends. *)
Inductive SignOut : Type :=
| SignedOut
| SignOutThrew.

(** [handleLogout]: the transcript is cleared once [signOut] has resolved;
    when it throws the handler stops there. *)
Definition handleLogout (o : SignOut) (st : AppState) : AppState :=
  match o with
  | SignedOut => setMessages (fun _ => []) st
  | SignOutThrew => st
  end.



(** What one submit adds to the transcript. *)
Definition exchange (sendMessage : string -> string -> Outcome)
    (s : option Session) (typed : string) : list Message :=
  if truthy (trim typed)
  then [{| role := "user"; text := typed; explanation := None |};
        match s with
        | None => errorMessage
        | Some s' =>
            match sendMessage typed (access_token s') with
            | Resolved data =>
                {| role := "ai"; text := response data;
                   explanation := memory_used data |}
            | Rejected => errorMessage
            end
        end]
  else [].

(** *** The messages area *)

(** Shown while the transcript is empty. *)
Definition placeholder : Node :=
  Elem "div" (cls "h-full flex flex-col items-center justify-center opacity-40 animate-fade-in select-none")
    [Elem "Brain" (cls "mb-6 text-[#2d6a4f]") [];
     Elem "p" (cls "text-xl font-light tracking-wide text-gray-400")
       [Text "Where shall we begin?"]].

Definition bounceDot : string :=
  "w-1.5 h-1.5 bg-[#52b788] rounded-full animate-bounce".

(** [TypingIndicator] of [TypingIndicator.jsx]; the three dots differ only
    in their inline animation delay, which is not part of the tree. *)
Definition TypingIndicator : Node :=
  Elem "div" (cls "flex w-full justify-start animate-fade-in mb-6")
    [Elem "div" (cls "flex-shrink-0 mr-3 mt-1")
       [Elem "div" (cls "w-8 h-8 rounded-full bg-[#2d6a4f]/20 flex items-center justify-center border border-[#2d6a4f]/50")
          [Elem "div" (cls "w-2 h-2 bg-[#40916c] rounded-full animate-pulse") []]];
     Elem "div" (cls "px-5 py-4 bg-[#1a1d1c] border border-white/5 rounded-2xl rounded-tl-sm flex items-center gap-1.5 h-12")
       [Elem "div" (cls bounceDot) [];
        Elem "div" (cls bounceDot) [];
        Elem "div" (cls bounceDot) []]].

(** The scrolling area of [App]: the placeholder, one [MessageBubble] per
    message (each with its own [showExplain], given by [shows] at the
    message's index), the typing indicator, and the scroll anchor. *)
Definition messagesArea (st : AppState) (shows : nat -> bool) : Node :=
  Elem "div" (cls "flex-1 overflow-y-auto px-4 sm:px-8 py-24 space-y-2 scroll-smooth no-scrollbar")
    (when (Nat.eqb (length (messages st)) 0) placeholder
     ++ imap (fun idx msg => MessageBubble msg (shows idx)) (messages st)
     ++ when (loading st) TypingIndicator
     ++ [Elem "div" (cls "h-4") []]).

(** *** What is on screen *)

Definition shows_placeholder (n : Node) : bool :=
  negb (Nat.eqb (length (List.filter (is_tag "Brain") (descendants n))) 0).

Definition has_class (c : string) (n : Node) : bool :=
  match n with
  | Elem _ a _ => String.eqb (className a) c
  | Text _ => false
  end.

Definition typing_dots (n : Node) : list Node :=
  List.filter (has_class bounceDot) (descendants n).

(** A message with something to explain. *)
Definition explainable (message : Message) : bool :=
  negb (isUser message) && hasMemory message.

(** The bullets a message contributes when its panel is open. *)
Definition bullets_of (message : Message) (showExplain : bool) : list string :=
  if showExplain && explainable message
  then items_of (explanation message) "stem"
       ++ items_of (explanation message) "branch"
  else [].

End App.

(** ** AuthPage *)

Module Auth.

(** The state of [AuthPage] ([useState] cells); [error] is [null] or the
    message of the last failure. *)
Record AuthState : Type := mkAuthState {
  email : string;
  password : string;
  loading : bool;
  error : option string;
  mode : string
}.

Definition initial : AuthState :=
  {| email := ""; password := ""; loading := false; error := None;
     mode := "login" |}.

Definition setLoading (v : bool) (st : AuthState) : AuthState :=
  {| email := email st; password := password st; loading := v;
     error := error st; mode := mode st |}.

Definition setError (v : option string) (st : AuthState) : AuthState :=
  {| email := email st; password := password st; loading := loading st;
     error := v; mode := mode st |}.

Definition setMode (v : string) (st : AuthState) : AuthState :=
  {| email := email st; password := password st; loading := loading st;
     error := error st; mode := v |}.

(** The two calls made on the Supabase client. *)
Inductive AuthRequest : Type :=
| SignUp (email password : string)
| SignInWithPassword (email password : string).

(** What an awaited call gives back: the [{ data, error }] pair, read as
    [data.session] and the message of [error] when there is one, or an
    exception with its message. *)
Inductive AuthReply : Type :=
| Replied (session : option Chat.Session) (error : option string)
| Threw (message : string).

Inductive AuthEffect : Type :=
| PreventDefault
| OnLogin (session : option Chat.Session)
| Alert (text : string).

Inductive AuthProg : Type :=
| Done
| Do (e : AuthEffect) (k : AuthProg)
| SetState (f : AuthState -> AuthState) (k : AuthProg)
| Await (request : AuthRequest) (k : AuthReply -> AuthProg).

(** [finally { setLoading(false); }] *)
Definition finally : AuthProg :=
  SetState (setLoading false) Done.

(** [catch (err) { setError(err.message); }] *)
Definition catch (message : string) : AuthProg :=
  SetState (setError (Some message)) finally.

Definition confirmNotice : string :=
  "Account created! If you haven't disabled 'Confirm Email' in Supabase, please check your inbox.".

(** [handleAuth], closed over the [email], [password] and [mode] of the
    render the form was submitted from. *)
Definition handleAuth (email password mode : string) : AuthProg :=
  Do PreventDefault
    (SetState (setLoading true)
    (SetState (setError None)
       (if String.eqb mode "signup"
        then
          Await (SignUp email password)
            (fun reply =>
               match reply with
               | Threw message => catch message
               | Replied _ (Some message) => catch message
               | Replied (Some s) None => Do (OnLogin (Some s)) finally
               | Replied None None =>
                   Do (Alert confirmNotice)
                     (SetState (setMode "login") finally)
               end)
        else
          Await (SignInWithPassword email password)
            (fun reply =>
               match reply with
               | Threw message => catch message
               | Replied _ (Some message) => catch message
               | Replied s None => Do (OnLogin s) finally
               end)))).

Record AuthWorld : Type := mkAuthWorld {
  state : AuthState;
  requests : list AuthRequest;
  effects : list AuthEffect
}.

Definition world_of (st : AuthState) : AuthWorld :=
  {| state := st; requests := []; effects := [] |}.

(** Run to completion against the auth service [supabase]. *)
Fixpoint run (supabase : AuthRequest -> AuthReply) (p : AuthProg)
    (w : AuthWorld) : AuthWorld :=
  match p with
  | Done => w
  | Do e k =>
      run supabase k
        {| state := state w; requests := requests w;
           effects := effects w ++ [e] |}
  | SetState f k =>
      run supabase k
        {| state := f (state w); requests := requests w;
           effects := effects w |}
  | Await request k =>
      run supabase (k (supabase request))
        {| state := state w; requests := requests w ++ [request];
           effects := effects w |}
  end.

(** Submitting the form in state [st]. *)
Definition submit (supabase : AuthRequest -> AuthReply) (st : AuthState)
  : AuthWorld :=
  run supabase (handleAuth (email st) (password st) (mode st)) (world_of st).

(** *** What the page shows *)

Definition heading (st : AuthState) : string :=
  if String.eqb (mode st) "login" then "Welcome Back" else "Join Rooted AI".

Definition submitLabel (st : AuthState) : string :=
  if loading st then "Processing..."
  else if String.eqb (mode st) "login" then "Sign In" else "Sign Up".

(** [{error && <div ...>{error}</div>}]: an empty string is falsy. *)
Definition errorBox (st : AuthState) : option string :=
  match error st with
  | Some message => if Chat.truthy message then Some message else None
  | None => None
  end.

(** The link under the form: its label, and the mode it switches to. *)
Definition switchLabel (st : AuthState) : string :=
  if String.eqb (mode st) "login" then "Sign Up" else "Sign In".

Definition clickSwitch (st : AuthState) : AuthState :=
  if String.eqb (mode st) "login" then setMode "signup" st
  else setMode "login" st.

(** The logins reported to the parent ([onLogin]). *)
Definition logins (es : list AuthEffect) : list (option Chat.Session) :=
  omap (fun e => match e with OnLogin s => Some s | _ => None end) es.

Definition alerts (es : list AuthEffect) : list string :=
  omap (fun e => match e with Alert t => Some t | _ => None end) es.

(** The call a submit is expected to make: sign-up on the sign-up form,
    sign-in otherwise. *)
Definition request_of (st : AuthState) : AuthRequest :=
  if String.eqb (mode st) "signup"
  then SignUp (email st) (password st)
  else SignInWithPassword (email st) (password st).

(** The two modes the page is written for. *)
Definition valid_mode (st : AuthState) : Prop :=
  mode st = "login" \/ mode st = "signup".

(** The message a reply fails with, if it fails. *)
Definition failure (reply : AuthReply) : option string :=
  match reply with
  | Threw message => Some message
  | Replied _ e => e
  end.

End Auth.

(** ** More of what is on screen *)

Module Screen.
Import Dom Bubble.

(** The avatar is the only place the [Leaf] icon is used. *)
Definition avatars (n : Node) : list Node :=
  List.filter (is_tag "Leaf") (descendants n).

Definition root_class (n : Node) : string :=
  match n with
  | Elem _ a _ => className a
  | Text _ => ""
  end.

Definition key_of (n : Node) : option nat :=
  match n with
  | Elem _ a _ => key a
  | Text _ => None
  end.

(** The React keys of the bullets of a list, top to bottom. *)
Definition bullet_keys (items : list Node) : list (option nat) :=
  key_of <$> List.filter (is_tag "li") items.

(** The lists ([ul]) inside a node. *)
Definition lists (n : Node) : list Node :=
  List.filter (is_tag "ul") (descendants n).

(** The message without its explanation. *)
Definition plain (message : Message) : Message :=
  {| role := role message; text := text message; explanation := None |}.

End Screen.

(** ** Sample data *)

Module Samples.

(** A reply that used one identity fact and two habits, with an episodic
    item alongside. *)
Definition sample_explanation : Explanation :=
  <["stem" := ["Name is Ana"]]>
    (<["branch" := ["Runs daily"; "Drinks tea"]]>
       (<["leaf" := ["Went hiking on Sunday"]]> ∅)).

Definition sample_reply : Message :=
  {| role := "ai"; text := "Good morning, Ana.";
     explanation := Some sample_explanation |}.

(** A reply whose explanation came back with nothing in it. *)
Definition sample_empty_reply : Message :=
  {| role := "ai"; text := "Hello.";
     explanation :=
       Some (<["stem" := []]> (<["leaf" := ["Went hiking on Sunday"]]> ∅)) |}.

Definition sample_server (text token : string) : Chat.Outcome :=
  Chat.Resolved {| Chat.response := "Good morning, Ana.";
                   Chat.memory_used := Some sample_explanation |}.

Definition sample_state : Chat.AppState :=
  {| Chat.session := Some {| Chat.access_token := "token-1" |};
     Chat.input := "  good morning ";
     Chat.messages := [];
     Chat.loading := false |}.

(** States of the chat form used in the examples. *)
Definition blank_state : Chat.AppState :=
  {| Chat.session := Some {| Chat.access_token := "token-1" |};
     Chat.input := "   ";
     Chat.messages := [sample_reply];
     Chat.loading := false |}.

Definition failing_server (text token : string) : Chat.Outcome := Chat.Rejected.

Definition signed_out_state : Chat.AppState :=
  {| Chat.session := None; Chat.input := "hello"; Chat.messages := []; Chat.loading := false |}.

(** Auth services and auth forms used in the examples. *)
Definition rejecting (request : Auth.AuthRequest) : Auth.AuthReply :=
  Auth.Replied None (Some "Invalid login credentials").

Definition accepting (request : Auth.AuthRequest) : Auth.AuthReply :=
  Auth.Replied (Some {| Chat.access_token := "token-1" |}) None.

Definition after_failure : Auth.AuthState :=
  {| Auth.email := "ana@example.org"; Auth.password := "secret"; Auth.loading := false;
     Auth.error := Some "Invalid login credentials"; Auth.mode := "login" |}.

Definition unconfirmed (request : Auth.AuthRequest) : Auth.AuthReply :=
  Auth.Replied None None.

Definition signing_up : Auth.AuthState :=
  {| Auth.email := "ana@example.org"; Auth.password := "secret"; Auth.loading := false;
     Auth.error := None; Auth.mode := "signup" |}.

End Samples.

(** * Properties of MessageBubble *)

Module BubbleFacts.
Import Dom Bubble Samples.

Lemma append_empty_r (s : string) : s +:+ "" = s.
Proof.
  induction s as [|c s IH]; [reflexivity|].
  change (String c (s +:+ "") = String c s). now rewrite IH.
Qed.

Lemma gt0_opt_length (a : option (list string)) :
  gt0 (opt_length a) = true <-> exists items, a = Some items /\ items <> [].
Proof.
  destruct a as [[|x l]|]; simpl; split; try discriminate.
  - intros (items & [= <-] & Hne). now destruct Hne.
  - intros _. now exists (x :: l).
  - intros _. reflexivity.
  - intros (items & Heq & _). discriminate.
Qed.

Lemma hasMemory_spec (message : Message) :
  hasMemory message = true <->
  nonempty_array (explanation message) "stem"
  \/ nonempty_array (explanation message) "branch".
Proof.
  unfold hasMemory, memoryData, nonempty_array.
  rewrite orb_true_iff, !gt0_opt_length.
  destruct (explanation message) as [e|].
  - split.
    + intros [(items & H1 & H2) | (items & H1 & H2)];
        [left | right]; exists e, items; auto.
    + intros [(e' & items & [= <-] & H1 & H2) | (e' & items & [= <-] & H1 & H2)];
        [left | right]; exists items; auto.
  - rewrite !lookup_empty. split.
    + intros [(items & H1 & _) | (items & H1 & _)]; discriminate.
    + intros [(e' & items & H1 & _) | (e' & items & H1 & _)]; discriminate.
Qed.

Lemma isUser_spec (message : Message) :
  isUser message = true <-> role message = "user".
Proof. unfold isUser. apply String.eqb_eq. Qed.

(** Bullets are [li] elements holding one text; nothing else hides in them. *)
Lemma filter_descendants_li (t : string) (j : nat) (m : string) :
  List.filter (is_tag t) (descendants (li j m)) =
  (if String.eqb "li" t then [li j m] else [])
  ++ (if String.eqb "" t then [Text m] else []).
Proof.
  change (descendants (li j m)) with [li j m; Text m].
  cbn [List.filter].
  change (is_tag t (li j m)) with (String.eqb "li" t).
  change (is_tag t (Text m)) with (String.eqb "" t).
  now destruct (String.eqb "li" t), (String.eqb "" t).
Qed.

Lemma text_content_li (j : nat) (m : string) : text_content (li j m) = m.
Proof. apply append_empty_r. Qed.

Lemma descendants_li_filter (p : Node -> bool) (f : nat -> string -> Node)
    (l : list string) :
  (forall j m, p (li j m) = false) -> (forall m, p (Text m) = false) ->
  (forall i m, exists j, f i m = li j m) ->
  List.filter p (flat_map descendants (imap f l)) = [].
Proof.
  intros Hli Htext. revert f.
  induction l as [|m l IH]; intros f Hf; [reflexivity|].
  rewrite imap_cons. cbn [flat_map]. destruct (Hf 0 m) as [j ->].
  change (descendants (li j m)) with [li j m; Text m].
  cbn [app List.filter]. rewrite Hli, Htext.
  apply IH. intros i m'. apply (Hf (S i) m').
Qed.

Lemma descendants_li_bullets (f : nat -> string -> Node) (l : list string) :
  (forall i m, exists j, f i m = li j m) ->
  text_content <$> List.filter (is_tag "li") (flat_map descendants (imap f l)) = l.
Proof.
  revert f. induction l as [|m l IH]; intros f Hf; [reflexivity|].
  rewrite imap_cons. cbn [flat_map]. destruct (Hf 0 m) as [j ->].
  rewrite List.filter_app, filter_descendants_li.
  cbn [String.eqb Ascii.eqb Bool.eqb app]. rewrite fmap_cons, text_content_li.
  f_equal. apply IH. intros i m'. apply (Hf (S i) m').
Qed.

Lemma li_bullets (f : nat -> string -> Node) (l : list string) :
  (forall i m, exists j, f i m = li j m) ->
  text_content <$> List.filter (is_tag "li") (imap f l) = l.
Proof.
  revert f. induction l as [|m l IH]; intros f Hf; [reflexivity|].
  rewrite imap_cons. destruct (Hf 0 m) as [j ->].
  cbn [List.filter]. change (is_tag "li" (li j m)) with true. cbv iota.
  rewrite fmap_cons, text_content_li.
  f_equal. apply IH. intros i m'. apply (Hf (S i) m').
Qed.

Lemma li_is_li : forall i m, exists j, li i m = li j m.
Proof. intros i m. now exists i. Qed.


(** Reduce a filter over the elements of a rendered bubble: the fixed part
    by computation, the bullets by the lemmas above. *)
Ltac crunch_filter :=
  repeat first
    [ progress cbn [descendants flat_map app when List.filter array_map
                    panel toggle toggleButton avatar
                    is_tag tag_of is_panel children_of className cls
                    panelHeading String.append
                    String.eqb Ascii.eqb Bool.eqb negb andb orb]
    | rewrite List.filter_app
    | rewrite descendants_li_filter by (reflexivity || apply li_is_li)
    | rewrite app_nil_r ].

Lemma buttons_MessageBubble (message : Message) (showExplain : bool) :
  buttons (MessageBubble message showExplain) =
  if negb (isUser message) && hasMemory message
  then [toggleButton showExplain] else [].
Proof.
  unfold buttons, MessageBubble, hasMemory, panel.
  destruct (isUser message), showExplain,
    (memoryData message !! "stem") as [[|x xs]|],
    (memoryData message !! "branch") as [[|y ys]|];
    cbn [opt_length fmap option_fmap option_map length gt0 Nat.eqb];
    crunch_filter; reflexivity.
Qed.

Lemma panels_MessageBubble (message : Message) (showExplain : bool) :
  panels (MessageBubble message showExplain) =
  if showExplain && negb (isUser message) && hasMemory message
  then [panel (memoryData message)] else [].
Proof.
  unfold panels, MessageBubble, hasMemory, panel.
  destruct (isUser message), showExplain,
    (memoryData message !! "stem") as [[|x xs]|],
    (memoryData message !! "branch") as [[|y ys]|];
    cbn [opt_length fmap option_fmap option_map length gt0 Nat.eqb];
    crunch_filter; reflexivity.
Qed.

Lemma sections_panel (e : Explanation) :
  sections (panel e) =
  labelled "STEM (Identity):" (default [] (e !! "stem"))
  ++ labelled "BRANCH (Pattern):" (default [] (e !! "branch")).
Proof.
  unfold sections, panel.
  destruct (e !! "stem") as [[|x xs]|], (e !! "branch") as [[|y ys]|];
    cbn [opt_length fmap option_fmap option_map length gt0 Nat.eqb negb
         when app children_of omap list_omap section_of array_map
         default labelled];
    rewrite ?(li_bullets li) by apply li_is_li; reflexivity.
Qed.

Lemma bullets_MessageBubble (message : Message) (showExplain : bool) :
  bullets (MessageBubble message showExplain) =
  if showExplain && negb (isUser message) && hasMemory message
  then items_of (explanation message) "stem"
       ++ items_of (explanation message) "branch"
  else [].
Proof.
  assert (Hitems : forall k, items_of (explanation message) k
                             = default [] (memoryData message !! k)).
  { intros k. unfold items_of, memoryData.
    destruct (explanation message); [reflexivity|].
    now rewrite lookup_empty. }
  rewrite !Hitems.
  unfold bullets, MessageBubble, hasMemory, panel.
  destruct (isUser message), showExplain,
    (memoryData message !! "stem") as [[|x xs]|],
    (memoryData message !! "branch") as [[|y ys]|];
    cbn [opt_length fmap option_fmap option_map length gt0 Nat.eqb default];
    crunch_filter;
    rewrite ?fmap_app, ?(descendants_li_bullets li) by apply li_is_li;
    rewrite ?app_nil_r; reflexivity.
Qed.

Lemma click_toggle_spec (message : Message) (showExplain : bool) :
  click_toggle message showExplain =
  if negb (isUser message) && hasMemory message
  then negb showExplain else showExplain.
Proof.
  unfold click_toggle. rewrite buttons_MessageBubble.
  now destruct (negb (isUser message) && hasMemory message).
Qed.

Lemma MessageBubble_ext (m1 m2 : Message) (showExplain : bool) :
  role m1 = role m2 -> text m1 = text m2 ->
  memoryData m1 !! "stem" = memoryData m2 !! "stem" ->
  memoryData m1 !! "branch" = memoryData m2 !! "branch" ->
  MessageBubble m1 showExplain = MessageBubble m2 showExplain.
Proof.
  intros Hrole Htext Hstem Hbranch.
  unfold MessageBubble, hasMemory, panel, isUser.
  now rewrite Hrole, Htext, Hstem, Hbranch.
Qed.

Lemma items_of_memoryData (message : Message) (k : string) :
  items_of (explanation message) k = default [] (memoryData message !! k).
Proof.
  unfold items_of, memoryData.
  destruct (explanation message); [reflexivity | now rewrite lookup_empty].
Qed.

(** C4.  The toggle is on screen exactly for a message that is not the
    user's and whose explanation has a non-empty [stem] or [branch] array.
    When it is there it is the one button of the bubble, reading "Why did
    I say this?" while the panel is closed and "Hide Context" while it is
    open.  A user message shows neither toggle nor panel, whatever its
    explanation holds and whatever the state. *)
Theorem toggle_rendered_iff (message : Message) (showExplain : bool) :
  (has_toggle (MessageBubble message showExplain) = true <->
   role message <> "user"
   /\ (nonempty_array (explanation message) "stem"
       \/ nonempty_array (explanation message) "branch"))
  /\ text_content <$> buttons (MessageBubble message showExplain)
     = (if has_toggle (MessageBubble message showExplain)
        then [if showExplain then "Hide Context" else "Why did I say this?"]
        else [])
  /\ (role message = "user" ->
      has_toggle (MessageBubble message showExplain) = false
      /\ has_panel (MessageBubble message showExplain) = false).
Proof.
  unfold has_toggle, has_panel.
  rewrite buttons_MessageBubble, panels_MessageBubble.
  rewrite <- hasMemory_spec.
  pose proof (isUser_spec message) as Huser.
  destruct (isUser message) eqn:Eu, (hasMemory message) eqn:Em;
    cbn [negb andb length Nat.eqb fmap list_fmap].
  - split; [|split].
    + split; [discriminate|]. intros [Hne _]. destruct Hne. now apply Huser.
    + reflexivity.
    + intros _. now rewrite !andb_false_r.
  - split; [|split].
    + split; [discriminate|]. intros [_ Hm]. discriminate.
    + reflexivity.
    + intros _. now rewrite !andb_false_r.
  - split; [|split].
    + split; [|reflexivity]. intros _. split; [|reflexivity].
      intros Hr. apply Huser in Hr. discriminate.
    + now destruct showExplain.
    + intros Hr. apply Huser in Hr. discriminate.
  - split; [|split].
    + split; [discriminate|]. intros [_ Hm]. discriminate.
    + reflexivity.
    + intros Hr. apply Huser in Hr. discriminate.
Qed.

(** C3.  For a message that is not the user's and whose explanation has a
    non-empty [stem] or [branch] array, clicking the closed toggle opens the
    panel, and the open bubble holds one panel whose sections are the stem
    items under "STEM (Identity):" and the branch items under
    "BRANCH (Pattern):", each in array order (a section is left out when
    its array is empty or missing).  The bullets on screen are those items
    and no others, and the items of any other memory class have no effect
    on what is rendered. *)
Theorem panel_shows_stem_and_branch (message : Message) :
  role message <> "user" ->
  nonempty_array (explanation message) "stem"
  \/ nonempty_array (explanation message) "branch" ->
  click_toggle message false = true
  /\ (exists p : Node,
        panels (MessageBubble message true) = [p]
        /\ sections p
           = labelled "STEM (Identity):" (items_of (explanation message) "stem")
             ++ labelled "BRANCH (Pattern):"
                  (items_of (explanation message) "branch"))
  /\ bullets (MessageBubble message true)
     = items_of (explanation message) "stem"
       ++ items_of (explanation message) "branch"
  /\ (forall (e : Explanation) (k : string) (others : list string),
        explanation message = Some e ->
        k <> "stem" -> k <> "branch" ->
        MessageBubble
          {| role := role message; text := text message;
             explanation := Some (<[k := others]> e) |} true
        = MessageBubble message true).
Proof.
  intros Hrole Hmem.
  apply hasMemory_spec in Hmem.
  assert (Hu : isUser message = false).
  { destruct (isUser message) eqn:E; [|reflexivity].
    apply isUser_spec in E. contradiction. }
  split; [|split; [|split]].
  - rewrite click_toggle_spec, Hu, Hmem. reflexivity.
  - exists (panel (memoryData message)). split.
    + rewrite panels_MessageBubble, Hu, Hmem. reflexivity.
    + rewrite sections_panel, !items_of_memoryData. reflexivity.
  - rewrite bullets_MessageBubble, Hu, Hmem. reflexivity.
  - intros e k others He Hk1 Hk2.
    apply MessageBubble_ext; try reflexivity;
      unfold memoryData; cbn [explanation]; rewrite He;
      now rewrite lookup_insert_ne.
Qed.

Lemma sample_reply_has_stem :
  nonempty_array (explanation sample_reply) "stem".
Proof.
  exists sample_explanation, ["Name is Ana"].
  split; [reflexivity | split; [vm_compute; reflexivity | discriminate]].
Defined.

Lemma panel_shows_stem_and_branch_witness :
  click_toggle sample_reply false = true
  /\ (exists p : Node,
        panels (MessageBubble sample_reply true) = [p]
        /\ sections p
           = [("STEM (Identity):", ["Name is Ana"]);
              ("BRANCH (Pattern):", ["Runs daily"; "Drinks tea"])])
  /\ bullets (MessageBubble sample_reply true)
     = ["Name is Ana"; "Runs daily"; "Drinks tea"].
Proof.
  assert (Hrole : role sample_reply <> "user") by discriminate.
  destruct (panel_shows_stem_and_branch sample_reply Hrole
              (or_introl sample_reply_has_stem))
    as (Hclick & Hpanel & Hbullets & _).
  split; [exact Hclick | split; [exact Hpanel | exact Hbullets]].
Defined.

End BubbleFacts.

(** * Properties of handleSend *)

Module ChatFacts.
Import Chat Samples.

Lemma truthy_spec (s : string) : truthy s = true <-> s <> "".
Proof.
  unfold truthy. rewrite negb_true_iff. apply String.eqb_neq.
Qed.

Example trim_both_ends : trim "  good morning " = "good morning".
Proof. reflexivity. Qed.

Example trim_blank :
  trim (String (Ascii.ascii_of_nat 9) (String (Ascii.ascii_of_nat 10) "  "))
  = "".
Proof. reflexivity. Qed.

Example trim_keeps_inner_space : trim " a b " = "a b".
Proof. reflexivity. Qed.

(** Blank input: the handler returns before touching the state or the
    network. *)
Lemma handleSend_blank (sendMessage : string -> string -> Outcome)
    (st : AppState) :
  trim (input st) = "" ->
  run sendMessage (handleSend (input st) (session st)) (world_of st)
  = {| state := st; requests := []; effects := [PreventDefault] |}.
Proof.
  intros Hblank. unfold handleSend, truthy. rewrite Hblank. reflexivity.
Qed.

(** A failed send appends the apology, which carries no explanation. *)
Lemma handleSend_rejected (sendMessage : string -> string -> Outcome)
    (st : AppState) (s : Session) :
  session st = Some s ->
  trim (input st) <> "" ->
  sendMessage (input st) (access_token s) = Rejected ->
  messages (state (run sendMessage (handleSend (input st) (session st))
                     (world_of st)))
  = messages st
    ++ [{| role := "user"; text := input st; explanation := None |};
        errorMessage].
Proof.
  intros Hs Hin Hrej. apply truthy_spec in Hin.
  unfold handleSend. rewrite Hin, Hs. cbn [negb run text].
  rewrite Hrej. cbn. now rewrite <- List.app_assoc.
Qed.

(** C5.  A send of non-blank text that the server answers makes exactly
    one request, the typed text with the session's access token; the
    transcript grows by the user's message followed by a single assistant
    message whose text is [data.response] and whose explanation is
    [data.memory_used]; the input is cleared and loading is off again.
    The assistant message is appended to the transcript as it is when the
    answer arrives, whatever happened to it in between. *)
Theorem handleSend_contract (sendMessage : string -> string -> Outcome)
    (st : AppState) (s : Session) (data : Data) :
  session st = Some s ->
  trim (input st) <> "" ->
  sendMessage (input st) (access_token s) = Resolved data ->
  requests (run sendMessage (handleSend (input st) (session st)) (world_of st))
  = [(input st, access_token s)]
  /\ state (run sendMessage (handleSend (input st) (session st)) (world_of st))
     = {| session := Some s;
          input := "";
          messages :=
            messages st
            ++ [{| role := "user"; text := input st; explanation := None |};
                {| role := "ai"; text := response data;
                   explanation := memory_used data |}];
          loading := false |}
  /\ exists k : Outcome -> Async,
       snd (advance (handleSend (input st) (session st)) st)
       = Some (input st, access_token s, k)
       /\ forall later : AppState,
            advance (k (Resolved data)) later
            = ({| session := session later;
                  input := input later;
                  messages :=
                    messages later
                    ++ [{| role := "ai"; text := response data;
                           explanation := memory_used data |}];
                  loading := false |}, None).
Proof.
  intros Hs Hin Hres. apply truthy_spec in Hin.
  unfold handleSend. rewrite Hin, Hs. cbn [negb run advance text snd].
  rewrite Hres.
  unfold finally, setLoading, setInput, setMessages, world_of. cbn.
  rewrite <- List.app_assoc, Hs.
  split; [reflexivity | split; [reflexivity|]].
  eexists. split; [reflexivity|]. intros later. reflexivity.
Qed.

Lemma handleSend_contract_witness :
  requests (run sample_server
              (handleSend (input sample_state) (session sample_state))
              (world_of sample_state))
  = [("  good morning ", "token-1")]
  /\ messages (state (run sample_server
                        (handleSend (input sample_state) (session sample_state))
                        (world_of sample_state)))
     = [{| role := "user"; text := "  good morning "; explanation := None |};
        Samples.sample_reply].
Proof.
  assert (Hin : trim (input sample_state) <> "") by discriminate.
  destruct (handleSend_contract sample_server sample_state
              {| access_token := "token-1" |}
              {| response := "Good morning, Ana.";
                 memory_used := Some Samples.sample_explanation |}
              eq_refl Hin eq_refl)
    as (Hreq & Hstate & _).
  split; [exact Hreq | now rewrite Hstate].
Defined.

End ChatFacts.

(** * Properties of the memory pipeline *)

Module BackendFacts.
Import Backend.

Section Facts.

Variable Embedding : Type.
Variable embed : string -> Embedding.
Variable in_scope : string -> Tag -> bool.
Variable serve : forall R : Type, Call Embedding R -> R.

Local Abbreviation Item := (MemoryItem Embedding).
Local Abbreviation Log := (list (Entry Embedding)).

(** The hits, the context and the answer of a turn, as the services give
    them. *)
Local Abbreviation hits_of q store :=
  (serve _ (Search (embed q) store)).
Local Abbreviation context_of q store :=
  (scope in_scope q (hits_of q store)).
Local Abbreviation answer_of q store :=
  (serve _ (Generate q (context_of q store))).

Lemma run_bind {A B : Type} (p : Prog Embedding A)
    (f : A -> Prog Embedding B) :
  run serve (bind p f)
  = (fst (run serve (f (fst (run serve p)))),
     snd (run serve p) ++ snd (run serve (f (fst (run serve p))))).
Proof.
  induction p as [a | R c k IH]; cbn [bind run fst snd app].
  - now destruct (run serve (f a)).
  - rewrite IH. destruct (run serve (k (serve R c))) as [a log].
    reflexivity.
Qed.

(** One turn: two calls, the search over the turn's store and then the
    generation from the scoped hits; the reply carries the answer. *)
Lemma run_respond (q : string) (store : list Item) :
  run serve (respond embed in_scope q store)
  = ({| Chat.response := answer_of q store;
        Chat.memory_used := Some (package (context_of q store)) |},
     [SearchCall (embed q) store (hits_of q store);
      GenerateCall q (context_of q store) (answer_of q store)]).
Proof. reflexivity. Qed.

Lemma run_converse (turns : list (string * list Item)) :
  Chat.response <$> fst (run serve (converse embed in_scope turns))
  = (fun turn => answer_of (fst turn) (snd turn)) <$> turns
  /\ snd (run serve (converse embed in_scope turns))
     = flat_map
         (fun turn =>
            [SearchCall (embed (fst turn)) (snd turn)
               (hits_of (fst turn) (snd turn));
             GenerateCall (fst turn) (context_of (fst turn) (snd turn))
               (answer_of (fst turn) (snd turn))])
         turns.
Proof.
  induction turns as [|[q store] rest [IHr IHl]]; [split; reflexivity|].
  cbn [converse]. rewrite run_bind, run_respond. cbn [fst snd].
  rewrite run_bind. cbn [fst snd run]. rewrite List.app_nil_r.
  split.
  - rewrite !fmap_cons. cbn [Chat.response fst snd]. now rewrite IHr.
  - cbn [flat_map app fst snd]. now rewrite IHl.
Qed.

(** In a list built from two entries per turn, entry [2n] is the first
    and entry [2n+1] the second of turn [n]. *)
Lemma lookup_pairs {A B : Type} (f g : A -> B) (l : list A) (j : nat) (b : B) :
  flat_map (fun a => [f a; g a]) l !! j = Some b ->
  exists (n : nat) (a : A),
    l !! n = Some a
    /\ ((j = 2 * n /\ b = f a) \/ (j = S (2 * n) /\ b = g a)).
Proof.
  revert j. induction l as [|a l IH]; intros j Hj; [discriminate|].
  cbn [flat_map app] in Hj.
  destruct j as [|[|j]].
  - injection Hj as <-. exists 0, a. split; [reflexivity | left; split; [lia | reflexivity]].
  - injection Hj as <-. exists 0, a. split; [reflexivity | right; split; [lia | reflexivity]].
  - cbn in Hj. destruct (IH j Hj) as (n & a' & Ha & Hcase).
    exists (S n), a'. split; [exact Ha|].
    destruct Hcase as [[-> ->] | [-> ->]]; [left | right]; split;
      first [lia | reflexivity].
Qed.

Lemma lookup_pairs_at {A B : Type} (f g : A -> B) (l : list A) (n : nat) (a : A) :
  l !! n = Some a ->
  flat_map (fun a => [f a; g a]) l !! (2 * n) = Some (f a)
  /\ flat_map (fun a => [f a; g a]) l !! S (2 * n) = Some (g a).
Proof.
  revert n. induction l as [|a' l IH]; intros n Hn; [discriminate|].
  destruct n as [|n].
  - injection Hn as ->. split; reflexivity.
  - cbn in Hn. destruct (IH n Hn) as [H1 H2].
    replace (2 * S n) with (S (S (2 * n))) by lia.
    cbn [flat_map app lookup list_lookup]. split; assumption.
Qed.

(** C6.  Whatever the vector index and the language model answer, in a
    conversation of any length every turn is answered by a call to the
    language model, and each such call comes directly after the search of
    its own turn: that search was made for the turn's query over the
    turn's store, the model is given the scoped hits of that very search,
    and the reply sent back for the turn is what the model answered.
    Nothing else reaches the services: there are two calls per turn. *)
Theorem retrieval_before_generation (turns : list (string * list Item)) :
  retrieval_precedes_generation embed in_scope serve turns
    (fst (run serve (converse embed in_scope turns)))
    (snd (run serve (converse embed in_scope turns)))
  /\ every_turn_generates turns
       (snd (run serve (converse embed in_scope turns)))
  /\ length (fst (run serve (converse embed in_scope turns))) = length turns
  /\ length (snd (run serve (converse embed in_scope turns)))
     = 2 * length turns.
Proof.
  destruct (run_converse turns) as [Hreplies Hlog].
  split; [|split; [|split]].
  - intros j q ctx answer Hj. rewrite Hlog in Hj |- *.
    destruct (lookup_pairs _ _ _ _ _ Hj) as (n & [q' store] & Hn & Hcase).
    cbn [fst snd] in Hcase.
    destruct Hcase as [[_ Heq] | [-> Heq]]; [discriminate|].
    injection Heq as -> -> ->.
    exists n, store, (hits_of q' store).
    destruct (lookup_pairs_at
                (fun turn => SearchCall (embed (fst turn)) (snd turn)
                               (hits_of (fst turn) (snd turn)))
                (fun turn => GenerateCall (fst turn)
                               (context_of (fst turn) (snd turn))
                               (answer_of (fst turn) (snd turn)))
                turns n (q', store) Hn) as [Hsearch _].
    repeat split; try reflexivity; try assumption.
    rewrite <- list_lookup_fmap, Hreplies, list_lookup_fmap, Hn.
    reflexivity.
  - intros n q store Hn. rewrite Hlog.
    exists (context_of q store), (answer_of q store).
    apply (lookup_pairs_at
             (fun turn => SearchCall (embed (fst turn)) (snd turn)
                            (hits_of (fst turn) (snd turn)))
             (fun turn => GenerateCall (fst turn)
                            (context_of (fst turn) (snd turn))
                            (answer_of (fst turn) (snd turn)))
             turns n (q, store) Hn).
  - apply (f_equal length) in Hreplies.
    now rewrite !length_fmap in Hreplies.
  - rewrite Hlog. clear. induction turns as [|t rest IH]; [reflexivity|].
    cbn [flat_map app length]. rewrite IH. lia.
Qed.

(** The explanation sent with a reply lists the STEM and BRANCH items of
    the context the answer was generated from, and nothing of any other
    class. *)
Lemma respond_explains (q : string) (store : list Item) :
  Chat.memory_used (fst (run serve (respond embed in_scope q store)))
  = Some (package (context_of q store))
  /\ package (context_of q store) !! "stem"
     = Some (contents_of STEM (context_of q store))
  /\ package (context_of q store) !! "branch"
     = Some (contents_of BRANCH (context_of q store))
  /\ package (context_of q store) !! "leaf" = None.
Proof.
  unfold package. split; [reflexivity | split; [|split]].
  - apply lookup_insert_eq.
  - rewrite lookup_insert_ne by discriminate. apply lookup_insert_eq.
  - rewrite !lookup_insert_ne by discriminate. apply lookup_empty.
Qed.

End Facts.

End BackendFacts.

(** * More properties of MessageBubble *)

Module BubbleMore.
Import Dom Bubble Screen Samples BubbleFacts.

Lemma hasMemory_false_items (message : Message) :
  hasMemory message = false <->
  items_of (explanation message) "stem" = []
  /\ items_of (explanation message) "branch" = [].
Proof.
  rewrite !items_of_memoryData. unfold hasMemory.
  destruct (memoryData message !! "stem") as [[|x xs]|],
    (memoryData message !! "branch") as [[|y ys]|]; cbn;
    split; try discriminate; try (intros [? ?]; discriminate); auto.
Qed.

Lemma MessageBubble_no_memory (message : Message) (showExplain : bool) :
  hasMemory message = false ->
  MessageBubble message showExplain = MessageBubble (plain message) false.
Proof.
  intros Hm.
  assert (Hp : hasMemory (plain message) = false) by reflexivity.
  unfold MessageBubble. rewrite Hm, Hp.
  change (isUser (plain message)) with (isUser message).
  change (text (plain message)) with (text message).
  now rewrite !andb_false_r.
Qed.

(** A user message is drawn from its text alone: whatever explanation it
    carries and whatever the state of its toggle, the bubble is the one of
    the bare text with the panel closed. *)
Theorem user_bubble_ignores_explanation (body : string)
    (e : option Explanation) (showExplain : bool) :
  MessageBubble {| role := "user"; text := body; explanation := e |} showExplain
  = MessageBubble {| role := "user"; text := body; explanation := None |} false.
Proof.
  unfold MessageBubble.
  change (isUser {| role := "user"; text := body; explanation := e |})
    with true.
  change (isUser {| role := "user"; text := body; explanation := None |})
    with true.
  cbn [negb andb when text]. now rewrite !andb_false_r.
Qed.

(** An explanation whose [stem] and [branch] arrays are empty or missing
    counts as no explanation: the bubble is the one of the message without
    it, with no toggle and no panel, in either state. *)
Theorem empty_explanation_is_none (message : Message) (showExplain : bool) :
  items_of (explanation message) "stem" = [] ->
  items_of (explanation message) "branch" = [] ->
  MessageBubble message showExplain = MessageBubble (plain message) false
  /\ buttons (MessageBubble message showExplain) = []
  /\ panels (MessageBubble message showExplain) = [].
Proof.
  intros Hstem Hbranch.
  assert (Hm : hasMemory message = false)
    by (apply hasMemory_false_items; auto).
  split; [now apply MessageBubble_no_memory|].
  rewrite buttons_MessageBubble, panels_MessageBubble, Hm.
  now rewrite !andb_false_r.
Qed.

Lemma empty_explanation_is_none_witness :
  MessageBubble sample_empty_reply true
  = MessageBubble (plain sample_empty_reply) false
  /\ buttons (MessageBubble sample_empty_reply true) = []
  /\ panels (MessageBubble sample_empty_reply true) = [].
Proof.
  apply (empty_explanation_is_none sample_empty_reply true);
    vm_compute; reflexivity.
Defined.

(** The panel is on screen exactly when the state says open and the toggle
    is on screen; in particular a closed bubble never shows it, and there
    is never more than one. *)
Theorem panel_iff_open_and_toggle (message : Message) (showExplain : bool) :
  has_panel (MessageBubble message showExplain)
  = showExplain && has_toggle (MessageBubble message showExplain)
  /\ has_panel (MessageBubble message false) = false
  /\ length (panels (MessageBubble message showExplain)) <= 1.
Proof.
  unfold has_panel, has_toggle.
  rewrite buttons_MessageBubble, !panels_MessageBubble.
  destruct showExplain, (isUser message), (hasMemory message); cbn; auto.
Qed.

(** Clicking the toggle flips the state when the toggle is there and does
    nothing otherwise; two clicks always bring the state back, and after a
    click the button reads the other label. *)
Theorem click_toggle_flips (message : Message) (showExplain : bool) :
  click_toggle message showExplain
  = (if has_toggle (MessageBubble message showExplain)
     then negb showExplain else showExplain)
  /\ click_toggle message (click_toggle message showExplain) = showExplain
  /\ (has_toggle (MessageBubble message showExplain) = true ->
      text_content
        <$> buttons (MessageBubble message (click_toggle message showExplain))
      = [if showExplain then "Why did I say this?" else "Hide Context"]).
Proof.
  unfold has_toggle.
  rewrite !click_toggle_spec, !buttons_MessageBubble.
  destruct (negb (isUser message) && hasMemory message); cbn.
  - split; [reflexivity | split; [apply negb_involutive|]].
    intros _. now destruct showExplain.
  - split; [reflexivity | split; [reflexivity | discriminate]].
Qed.

Lemma click_toggle_flips_witness :
  click_toggle sample_reply false = true
  /\ click_toggle sample_reply (click_toggle sample_reply false) = false
  /\ text_content
       <$> buttons (MessageBubble sample_reply (click_toggle sample_reply false))
     = ["Hide Context"].
Proof.
  destruct (click_toggle_flips sample_reply false) as (H1 & H2 & H3).
  split; [exact H1 | split; [exact H2 | exact (H3 eq_refl)]].
Defined.

(** The avatar sits beside every message that is not the user's and beside
    no user message; user bubbles are pushed to the right ([justify-end]),
    the others to the left ([justify-start]). *)
Theorem avatar_and_alignment (message : Message) (showExplain : bool) :
  (role message = "user" ->
   avatars (MessageBubble message showExplain) = []
   /\ root_class (MessageBubble message showExplain)
      = "flex w-full mb-6 justify-end animate-fade-in group")
  /\ (role message <> "user" ->
      length (avatars (MessageBubble message showExplain)) = 1
      /\ root_class (MessageBubble message showExplain)
         = "flex w-full mb-6 justify-start animate-fade-in group").
Proof.
  pose proof (isUser_spec message) as Huser.
  assert (Hav : avatars (MessageBubble message showExplain)
                = if isUser message then []
                  else [Elem "Leaf" (cls "text-[#40916c]") []]).
  { unfold avatars, MessageBubble, hasMemory, panel.
    destruct (isUser message), showExplain,
      (memoryData message !! "stem") as [[|x xs]|],
      (memoryData message !! "branch") as [[|y ys]|];
      cbn [opt_length fmap option_fmap option_map length gt0 Nat.eqb];
      crunch_filter; reflexivity. }
  rewrite Hav. unfold MessageBubble, root_class.
  destruct (isUser message); split; intros Hr.
  - split; reflexivity.
  - destruct Hr. now apply Huser.
  - apply Huser in Hr. discriminate.
  - split; reflexivity.
Qed.

(** A closed bubble reads as the message text, followed by the toggle's
    label when the toggle is there and by nothing else. *)
Theorem closed_bubble_text (message : Message) :
  text_content (MessageBubble message false)
  = text message
    +:+ (if has_toggle (MessageBubble message false)
         then "Why did I say this?" else "").
Proof.
  unfold has_toggle. rewrite buttons_MessageBubble.
  unfold MessageBubble.
  destruct (isUser message), (hasMemory message);
    cbn [negb andb when app text_content fold_right avatar toggle
         toggleButton length Nat.eqb];
    rewrite ?append_empty_r; reflexivity.
Qed.

Lemma li_keys_from (k : nat) (l : list string) :
  bullet_keys (imap (fun i => li (k + i)) l) = Some <$> seq k (length l).
Proof.
  revert k. induction l as [|m l IH]; intros k; [reflexivity|].
  rewrite imap_cons. unfold bullet_keys in *. cbn [List.filter].
  change (is_tag "li" (li (k + 0) m)) with true. cbv iota.
  change (length (m :: l)) with (S (length l)).
  change (seq k (S (length l))) with (k :: seq (S k) (length l)).
  rewrite !fmap_cons. f_equal.
  - cbn [key_of li key]. f_equal. lia.
  - rewrite <- (IH (S k)). do 2 f_equal.
    apply imap_ext. intros i x _. cbn. f_equal. lia.
Qed.

Lemma li_keys (l : list string) :
  bullet_keys (imap li l) = Some <$> seq 0 (length l).
Proof. exact (li_keys_from 0 l). Qed.

Lemma lists_MessageBubble (message : Message) (showExplain : bool) :
  Forall (fun ul => exists l : list string, children_of ul = imap li l)
    (lists (MessageBubble message showExplain)).
Proof.
  unfold lists, MessageBubble, hasMemory, panel.
  destruct (isUser message), showExplain,
    (memoryData message !! "stem") as [[|x xs]|],
    (memoryData message !! "branch") as [[|y ys]|];
    cbn [opt_length fmap option_fmap option_map length gt0 Nat.eqb];
    crunch_filter;
    repeat (apply Forall_cons; split; [eexists; reflexivity|]);
    apply Forall_nil_2.
Qed.

(** In every list of the panel the bullets are keyed by their array
    index: the keys are 0, 1, 2, ... in order, so no two bullets of a list
    share a key. *)
Theorem bullet_keys_are_indices (message : Message) (showExplain : bool) :
  Forall (fun ul =>
            bullet_keys (children_of ul)
            = Some <$> seq 0 (length (children_of ul))
            /\ NoDup (bullet_keys (children_of ul)))
    (lists (MessageBubble message showExplain)).
Proof.
  eapply Forall_impl; [apply lists_MessageBubble|].
  intros ul [l ->]. cbv beta.
  assert (Hkeys : bullet_keys (imap li l) = Some <$> seq 0 (length (imap li l))).
  { rewrite li_keys. now rewrite length_imap. }
  split; [exact Hkeys|].
  rewrite Hkeys. apply NoDup_fmap_2; [intros a b [= ->]; reflexivity|].
  apply NoDup_seq.
Qed.

End BubbleMore.

(** * Properties of the chat screen *)

Module AppFacts.
Import Dom Bubble Chat App Screen Samples BubbleFacts ChatFacts.

Lemma truthy_false (s : string) : truthy s = false <-> s = "".
Proof.
  unfold truthy. rewrite negb_false_iff. apply String.eqb_eq.
Qed.

(** The whole effect of one submit, in every case. *)
Lemma run_handleSend (sendMessage : string -> string -> Outcome)
    (typed : string) (sess : option Session) (st : AppState) :
  state (run sendMessage (handleSend typed sess) (world_of st))
  = (if truthy (trim typed)
     then {| session := session st; input := "";
             messages := messages st ++ exchange sendMessage sess typed;
             loading := false |}
     else st)
  /\ requests (run sendMessage (handleSend typed sess) (world_of st))
     = (if truthy (trim typed)
        then match sess with
             | Some s => [(typed, access_token s)]
             | None => []
             end
        else []).
Proof.
  unfold handleSend, exchange.
  destruct (truthy (trim typed)); [|split; reflexivity].
  destruct sess as [s|]; cbn [negb run text].
  - destruct (sendMessage typed (access_token s)) as [data|];
      unfold catch, finally, setLoading, setInput, setMessages, world_of; cbn;
      rewrite <- List.app_assoc; split; reflexivity.
  - unfold catch, finally, setLoading, setInput, setMessages, world_of; cbn.
    rewrite <- List.app_assoc. split; reflexivity.
Qed.

(** Submitting an empty or all-blank input does nothing: the state is
    untouched, no request is made, and the handler never reaches the
    [await].  The send button is disabled in that state. *)
Theorem blank_submit_is_noop (sendMessage : string -> string -> Outcome)
    (st : AppState) :
  trim (input st) = "" ->
  run sendMessage (handleSend (input st) (session st)) (world_of st)
  = {| state := st; requests := []; effects := [PreventDefault] |}
  /\ advance (handleSend (input st) (session st)) st = (st, None)
  /\ submitDisabled st = true.
Proof.
  intros Hblank. unfold handleSend, submitDisabled, truthy.
  rewrite Hblank. cbn. rewrite orb_true_r. auto.
Qed.

Lemma blank_submit_is_noop_witness :
  run sample_server (handleSend (input blank_state) (session blank_state))
    (world_of blank_state)
  = {| state := blank_state; requests := []; effects := [PreventDefault] |}
  /\ advance (handleSend (input blank_state) (session blank_state)) blank_state
     = (blank_state, None)
  /\ submitDisabled blank_state = true.
Proof.
  apply (blank_submit_is_noop sample_server blank_state). reflexivity.
Defined.

(** When the request fails, the transcript gains the user's message and
    the fixed apology, the failure is logged, loading is switched off, and
    the apology's bubble has no explanation toggle in either state. *)
Theorem failed_send_apologises (sendMessage : string -> string -> Outcome)
    (st : AppState) (s : Session) :
  session st = Some s ->
  trim (input st) <> "" ->
  sendMessage (input st) (access_token s) = Rejected ->
  run sendMessage (handleSend (input st) (session st)) (world_of st)
  = {| state :=
         {| session := Some s; input := "";
            messages :=
              messages st
              ++ [{| role := "user"; text := input st; explanation := None |};
                  errorMessage];
            loading := false |};
       requests := [(input st, access_token s)];
       effects := [PreventDefault; ConsoleError] |}
  /\ forall showExplain : bool,
       buttons (MessageBubble errorMessage showExplain) = [].
Proof.
  intros Hs Hin Hrej. apply truthy_spec in Hin. split.
  - unfold handleSend. rewrite Hin, Hs. cbn [negb run text]. rewrite Hrej.
    unfold catch, finally, setLoading, setInput, setMessages, world_of. cbn.
    now rewrite <- List.app_assoc, Hs.
  - intros showExplain. now rewrite buttons_MessageBubble.
Qed.

Lemma failed_send_apologises_witness :
  messages (state (run failing_server
                     (handleSend (input sample_state) (session sample_state))
                     (world_of sample_state)))
  = [{| role := "user"; text := "  good morning "; explanation := None |};
     errorMessage].
Proof.
  assert (Hin : trim (input sample_state) <> "") by discriminate.
  destruct (failed_send_apologises failing_server sample_state
              {| access_token := "token-1" |} eq_refl Hin eq_refl)
    as [Hrun _].
  now rewrite Hrun.
Defined.

(** Without a session no request leaves the browser: reading the token
    throws inside the [try], so the user's message is followed directly by
    the apology and loading ends switched off. *)
Theorem send_without_session (sendMessage : string -> string -> Outcome)
    (st : AppState) :
  session st = None ->
  trim (input st) <> "" ->
  run sendMessage (handleSend (input st) (session st)) (world_of st)
  = {| state :=
         {| session := None; input := "";
            messages :=
              messages st
              ++ [{| role := "user"; text := input st; explanation := None |};
                  errorMessage];
            loading := false |};
       requests := [];
       effects := [PreventDefault; ConsoleError] |}.
Proof.
  intros Hs Hin. apply truthy_spec in Hin.
  unfold handleSend. rewrite Hin, Hs. cbn [negb run text].
  unfold catch, finally, setLoading, setInput, setMessages, world_of. cbn.
  now rewrite <- List.app_assoc, Hs.
Qed.

Lemma send_without_session_witness :
  requests (run sample_server
              (handleSend (input signed_out_state) (session signed_out_state))
              (world_of signed_out_state))
  = []
  /\ messages (state (run sample_server
                        (handleSend (input signed_out_state)
                           (session signed_out_state))
                        (world_of signed_out_state)))
     = [{| role := "user"; text := "hello"; explanation := None |};
        errorMessage].
Proof.
  assert (Hin : trim (input signed_out_state) <> "") by discriminate.
  rewrite (send_without_session sample_server signed_out_state eq_refl Hin).
  split; reflexivity.
Defined.

Lemma exchange_shape (sendMessage : string -> string -> Outcome)
    (sess : option Session) (typed : string) :
  exchange sendMessage sess typed = []
  \/ exists reply : Message,
       exchange sendMessage sess typed
       = [{| role := "user"; text := typed; explanation := None |}; reply]
       /\ role reply = "ai".
Proof.
  unfold exchange. destruct (truthy (trim typed)); [right | now left].
  eexists. split; [reflexivity|].
  destruct sess as [s|]; [|reflexivity].
  now destruct (sendMessage typed (access_token s)).
Qed.

(** Whatever the input, the session and the server's answer, one submit
    never changes the session, never removes or rewrites a message already
    in the transcript, adds either nothing or the user's message followed
    by exactly one assistant message, and makes at most one request, which
    carries the submitted text. *)
Theorem handleSend_invariants (sendMessage : string -> string -> Outcome)
    (st : AppState) :
  session (state (run sendMessage (handleSend (input st) (session st))
                    (world_of st)))
  = session st
  /\ (exists added : list Message,
        messages (state (run sendMessage (handleSend (input st) (session st))
                           (world_of st)))
        = messages st ++ added
        /\ (added = []
            \/ exists reply : Message,
                 added = [{| role := "user"; text := input st;
                             explanation := None |}; reply]
                 /\ role reply = "ai"))
  /\ length (requests (run sendMessage (handleSend (input st) (session st))
                         (world_of st))) <= 1
  /\ Forall (fun r => fst r = input st)
       (requests (run sendMessage (handleSend (input st) (session st))
                    (world_of st))).
Proof.
  destruct (run_handleSend sendMessage (input st) (session st) st)
    as [Hstate Hreq].
  rewrite Hstate, Hreq.
  destruct (truthy (trim (input st))).
  - split; [reflexivity | split; [|split]].
    + eexists. split; [reflexivity | apply exchange_shape].
    + destruct (session st); cbn; lia.
    + destruct (session st); repeat constructor.
  - split; [reflexivity | split; [|split]].
    + exists []. split; [now rewrite List.app_nil_r | now left].
    + cbn; lia.
    + constructor.
Qed.

(** While the request is in flight the user's message is already in the
    transcript, the input is cleared and loading is on, so both the text
    input and the send button are disabled; submitting again from that
    state does nothing. *)
Theorem pending_send_locks_form (sendMessage : string -> string -> Outcome)
    (st : AppState) (s : Session) :
  session st = Some s ->
  trim (input st) <> "" ->
  fst (advance (handleSend (input st) (session st)) st)
  = {| session := Some s; input := "";
       messages :=
         messages st
         ++ [{| role := "user"; text := input st; explanation := None |}];
       loading := true |}
  /\ inputDisabled (fst (advance (handleSend (input st) (session st)) st))
     = true
  /\ submitDisabled (fst (advance (handleSend (input st) (session st)) st))
     = true
  /\ requests
       (run sendMessage
          (handleSend
             (input (fst (advance (handleSend (input st) (session st)) st)))
             (session (fst (advance (handleSend (input st) (session st)) st))))
          (world_of (fst (advance (handleSend (input st) (session st)) st))))
     = [].
Proof.
  intros Hs Hin. apply truthy_spec in Hin.
  assert (Hadv : fst (advance (handleSend (input st) (session st)) st)
                 = {| session := Some s; input := "";
                      messages :=
                        messages st
                        ++ [{| role := "user"; text := input st;
                               explanation := None |}];
                      loading := true |}).
  { unfold handleSend. rewrite Hin, Hs. cbn [negb advance fst].
    unfold setLoading, setInput, setMessages. cbn. now rewrite Hs. }
  rewrite Hadv. repeat split.
Qed.

Lemma pending_send_locks_form_witness :
  submitDisabled
    (fst (advance (handleSend (input sample_state) (session sample_state))
            sample_state))
  = true.
Proof.
  assert (Hin : trim (input sample_state) <> "") by discriminate.
  destruct (pending_send_locks_form sample_server sample_state
              {| access_token := "token-1" |} eq_refl Hin)
    as (_ & _ & Hsubmit & _).
  exact Hsubmit.
Defined.

(** The send button is enabled exactly when nothing is loading and the
    input has a non-blank character; in that state a submit always puts
    the user's text, untrimmed, into the transcript. *)
Theorem submit_enabled_iff (st : AppState) :
  (submitDisabled st = false <-> loading st = false /\ trim (input st) <> "")
  /\ (submitDisabled st = false ->
      exists rest : list Message,
        messages (fst (advance (handleSend (input st) (session st)) st))
        = messages st
          ++ {| role := "user"; text := input st; explanation := None |}
             :: rest).
Proof.
  unfold submitDisabled. rewrite orb_false_iff, negb_false_iff, truthy_spec.
  split; [reflexivity|]. intros [_ Hin]. apply truthy_spec in Hin.
  unfold handleSend. rewrite Hin. cbn [negb advance].
  destruct (session st) as [s|]; cbn.
  - exists []. reflexivity.
  - exists [errorMessage]. now rewrite <- List.app_assoc.
Qed.

(** Logging out empties the transcript and leaves the input, the loading
    flag and the session as they were (the session changes through the
    auth subscription); when [signOut] throws, the transcript stays.  A
    reply that arrives after the logout is still appended: it ends up as
    the only message of the cleared transcript. *)
Theorem reply_after_logout (st : AppState) (s : Session) (data : Data) :
  session st = Some s ->
  trim (input st) <> "" ->
  handleLogout SignedOut st
  = {| session := session st; input := input st; messages := [];
       loading := loading st |}
  /\ handleLogout SignOutThrew st = st
  /\ exists k : Outcome -> Async,
       snd (advance (handleSend (input st) (session st)) st)
       = Some (input st, access_token s, k)
       /\ fst (advance (k (Resolved data))
                 (handleLogout SignedOut
                    (fst (advance (handleSend (input st) (session st)) st))))
          = {| session := Some s; input := "";
               messages := [{| role := "ai"; text := response data;
                               explanation := memory_used data |}];
               loading := false |}.
Proof.
  intros Hs Hin. apply truthy_spec in Hin.
  split; [reflexivity | split; [reflexivity|]].
  unfold handleSend. rewrite Hin, Hs. cbn [negb advance snd fst text].
  eexists. split; [reflexivity|].
  unfold handleLogout, finally, setLoading, setInput, setMessages. cbn.
  now rewrite Hs.
Qed.

Lemma reply_after_logout_witness :
  exists k : Outcome -> Async,
    snd (advance (handleSend (input sample_state) (session sample_state))
           sample_state)
    = Some ("  good morning ", "token-1", k)
    /\ messages
         (fst (advance
                 (k (Resolved {| response := "Good morning, Ana.";
                                 memory_used := Some sample_explanation |}))
                 (handleLogout SignedOut
                    (fst (advance
                            (handleSend (input sample_state)
                               (session sample_state))
                            sample_state)))))
       = [sample_reply].
Proof.
  assert (Hin : trim (input sample_state) <> "") by discriminate.
  destruct (reply_after_logout sample_state {| access_token := "token-1" |}
              {| response := "Good morning, Ana.";
                 memory_used := Some sample_explanation |} eq_refl Hin)
    as (_ & _ & k & Hk & Hafter).
  exists k. split; [exact Hk | now rewrite Hafter].
Defined.




(** *** The messages area *)

Lemma filter_flat_map_imap {A : Type} (p : Node -> bool)
    (f : nat -> A -> Node) (l : list A) :
  List.filter p (flat_map descendants (imap f l))
  = concat (imap (fun i m => List.filter p (descendants (f i m))) l).
Proof.
  revert f. induction l as [|m l IH]; intros f; [reflexivity|].
  rewrite !imap_cons. cbn [flat_map concat].
  rewrite List.filter_app. f_equal. apply IH.
Qed.

Lemma concat_imap_nil {A B : Type} (f : nat -> A -> list B) (l : list A) :
  (forall i m, f i m = []) -> concat (imap f l) = [].
Proof.
  revert f. induction l as [|m l IH]; intros f Hf; [reflexivity|].
  rewrite imap_cons. cbn [concat]. rewrite Hf. apply IH.
  intros i m'. apply Hf.
Qed.

Lemma descendants_area (st : AppState) (shows : nat -> bool) :
  descendants (messagesArea st shows)
  = messagesArea st shows
    :: (flat_map descendants
          (when (Nat.eqb (length (messages st)) 0) placeholder)
        ++ flat_map descendants
             (imap (fun idx msg => MessageBubble msg (shows idx)) (messages st))
        ++ flat_map descendants (when (loading st) TypingIndicator)
        ++ [Elem "div" (cls "h-4") []]).
Proof.
  unfold messagesArea. cbn [descendants]. now rewrite !flat_map_app.
Qed.

Ltac crunch_bubble :=
  unfold MessageBubble, hasMemory, panel;
  match goal with
  | |- context [isUser ?m] =>
      destruct (isUser m),
        (memoryData m !! "stem") as [[|? ?]|],
        (memoryData m !! "branch") as [[|? ?]|]
  end;
  cbn [opt_length fmap option_fmap option_map length gt0 Nat.eqb];
  repeat first
    [ progress cbn [descendants flat_map app when List.filter array_map
                    panel toggle toggleButton avatar
                    is_tag tag_of has_class bounceDot className cls
                    String.append
                    String.eqb Ascii.eqb Bool.eqb negb andb orb]
    | rewrite List.filter_app
    | rewrite descendants_li_filter by (reflexivity || apply li_is_li)
    | rewrite app_nil_r ].

Lemma bubble_has_no_brain (message : Message) (showExplain : bool) :
  List.filter (is_tag "Brain") (descendants (MessageBubble message showExplain))
  = [].
Proof. destruct showExplain; crunch_bubble; reflexivity. Qed.

Lemma bubble_has_no_dots (message : Message) (showExplain : bool) :
  List.filter (has_class bounceDot)
    (descendants (MessageBubble message showExplain))
  = [].
Proof. destruct showExplain; crunch_bubble; reflexivity. Qed.

(** The "Where shall we begin?" placeholder is on screen exactly while
    the transcript is empty, and the three typing dots exactly while a
    request is loading; no bubble, whatever its message, can fake either. *)
Theorem area_placeholder_and_typing (st : AppState) (shows : nat -> bool) :
  shows_placeholder (messagesArea st shows)
  = Nat.eqb (length (messages st)) 0
  /\ length (typing_dots (messagesArea st shows))
     = (if loading st then 3 else 0).
Proof.
  unfold shows_placeholder, typing_dots. rewrite descendants_area.
  cbn [List.filter]. change (is_tag "Brain" (messagesArea st shows)) with false.
  change (has_class bounceDot (messagesArea st shows)) with false.
  cbv iota. rewrite !List.filter_app, !filter_flat_map_imap.
  rewrite !concat_imap_nil
    by (intros; first [apply bubble_has_no_brain | apply bubble_has_no_dots]).
  destruct (Nat.eqb (length (messages st)) 0), (loading st); split; reflexivity.
Qed.

Lemma toggles_count (shows : nat -> bool) (l : list Message) :
  length (concat (imap (fun i m => buttons (MessageBubble m (shows i))) l))
  = length (List.filter explainable l).
Proof.
  revert shows. induction l as [|m l IH]; intros shows; [reflexivity|].
  rewrite imap_cons. cbn [concat List.filter]. rewrite length_app.
  rewrite buttons_MessageBubble. fold (explainable m).
  change (imap ((fun i m0 => buttons (MessageBubble m0 (shows i))) ∘ S) l)
    with (imap (fun i m0 => buttons (MessageBubble m0 ((shows ∘ S) i))) l).
  rewrite IH. now destruct (explainable m).
Qed.

Lemma bullets_concat (shows : nat -> bool) (l : list Message) :
  text_content
    <$> concat (imap (fun i m =>
                        List.filter (is_tag "li")
                          (descendants (MessageBubble m (shows i)))) l)
  = concat (imap (fun i m => bullets_of m (shows i)) l).
Proof.
  revert shows. induction l as [|m l IH]; intros shows; [reflexivity|].
  rewrite !imap_cons. cbn [concat]. rewrite fmap_app. f_equal.
  - fold (bullets (MessageBubble m (shows 0))).
    rewrite bullets_MessageBubble. unfold bullets_of, explainable.
    now rewrite andb_assoc.
  - apply (IH (shows ∘ S)).
Qed.

(** Across a transcript the bubbles are independent: there is one toggle
    per message that is not the user's and has something to explain, and
    the bullets on screen are the stem and branch items of exactly the
    messages whose own panel is open, in transcript order. *)
Theorem area_toggles_and_bullets (st : AppState) (shows : nat -> bool) :
  length (buttons (messagesArea st shows))
  = length (List.filter explainable (messages st))
  /\ bullets (messagesArea st shows)
     = concat (imap (fun i m => bullets_of m (shows i)) (messages st)).
Proof.
  unfold buttons, bullets. rewrite descendants_area.
  cbn [List.filter].
  change (is_tag "button" (messagesArea st shows)) with false.
  change (is_tag "li" (messagesArea st shows)) with false.
  cbv iota. rewrite !List.filter_app, !filter_flat_map_imap.
  assert (Hb : forall c : bool,
             List.filter (is_tag "button") (flat_map descendants (when c placeholder)) = []
             /\ List.filter (is_tag "button") (flat_map descendants (when c TypingIndicator)) = []
             /\ List.filter (is_tag "li") (flat_map descendants (when c placeholder)) = []
             /\ List.filter (is_tag "li") (flat_map descendants (when c TypingIndicator)) = [])
    by (intros []; repeat split; reflexivity).
  destruct (Hb (Nat.eqb (length (messages st)) 0)) as (-> & _ & -> & _).
  destruct (Hb (loading st)) as (_ & -> & _ & ->).
  cbn [List.filter app is_tag tag_of String.eqb Ascii.eqb Bool.eqb].
  rewrite !List.app_nil_r. split.
  - apply toggles_count.
  - apply bullets_concat.
Qed.

(** A non-blank submit shows the three typing dots at once and, the
    transcript no longer being empty, no placeholder; when the request
    settles, either way, the dots go and the placeholder does not come
    back. *)
Theorem typing_while_pending (sendMessage : string -> string -> Outcome)
    (st : AppState) (s : Session) (shows : nat -> bool) :
  session st = Some s ->
  trim (input st) <> "" ->
  shows_placeholder
    (messagesArea (fst (advance (handleSend (input st) (session st)) st)) shows)
  = false
  /\ length (typing_dots
               (messagesArea
                  (fst (advance (handleSend (input st) (session st)) st))
                  shows))
     = 3
  /\ shows_placeholder
       (messagesArea
          (state (run sendMessage (handleSend (input st) (session st))
                    (world_of st))) shows)
     = false
  /\ typing_dots
       (messagesArea
          (state (run sendMessage (handleSend (input st) (session st))
                    (world_of st))) shows)
     = [].
Proof.
  intros Hs Hin.
  destruct (pending_send_locks_form sendMessage st s Hs Hin) as (Hadv & _).
  destruct (run_handleSend sendMessage (input st) (session st) st)
    as [Hrun _].
  apply truthy_spec in Hin. rewrite Hin in Hrun.
  pose proof (exchange_shape sendMessage (session st) (input st)) as Hex.
  unfold exchange in Hex. rewrite Hin in Hex.
  destruct Hex as [Hex | (reply & Hex & _)]; [discriminate|].
  unfold exchange in Hrun. rewrite Hin in Hrun. rewrite Hex in Hrun.
  destruct (area_placeholder_and_typing
              (fst (advance (handleSend (input st) (session st)) st)) shows)
    as [Hp1 Hd1].
  destruct (area_placeholder_and_typing
              (state (run sendMessage (handleSend (input st) (session st))
                        (world_of st))) shows)
    as [Hp2 Hd2].
  rewrite Hp1, Hd1, Hp2. rewrite Hadv, Hrun. cbn [messages loading].
  rewrite !length_app. cbn [length].
  rewrite Hrun in Hd2. cbn [loading] in Hd2.
  repeat split.
  - destruct (length (messages st)); reflexivity.
  - destruct (length (messages st)); reflexivity.
  - now apply nil_length_inv in Hd2.
Qed.

Lemma typing_while_pending_witness :
  length (typing_dots
            (messagesArea
               (fst (advance
                       (handleSend (input sample_state) (session sample_state))
                       sample_state))
               (fun _ => false)))
  = 3.
Proof.
  assert (Hin : trim (input sample_state) <> "") by discriminate.
  destruct (typing_while_pending sample_server sample_state
              {| access_token := "token-1" |} (fun _ => false) eq_refl Hin)
    as (_ & Hdots & _).
  exact Hdots.
Defined.

(** Logging out and in again on the same page gives an empty transcript
    for the new session, but what was typed in the input before the logout
    is still in it, and the loading flag is carried over as well. *)
Theorem relogin_keeps_draft (st : AppState) (next : Session) :
  showsAuthPage (setSession None (handleLogout SignedOut st)) = true
  /\ setSession (Some next) (setSession None (handleLogout SignedOut st))
     = {| session := Some next; input := input st; messages := [];
          loading := loading st |}
  /\ submitDisabled
       (setSession (Some next) (setSession None (handleLogout SignedOut st)))
     = submitDisabled st.
Proof. repeat split. Qed.

End AppFacts.

(** * Properties of AuthPage *)

Module AuthFacts.
Import Auth Samples.

(** One submit, case by case on the reply. *)
Lemma submit_cases (supabase : AuthRequest -> AuthReply) (st : AuthState) :
  requests (submit supabase st) = [request_of st]
  /\ state (submit supabase st)
     = match supabase (request_of st) with
       | Threw message | Replied _ (Some message) =>
           setLoading false (setError (Some message) st)
       | Replied (Some _) None => setLoading false (setError None st)
       | Replied None None =>
           if String.eqb (mode st) "signup"
           then setLoading false (setMode "login" (setError None st))
           else setLoading false (setError None st)
       end
  /\ effects (submit supabase st)
     = PreventDefault
       :: match supabase (request_of st) with
          | Threw _ | Replied _ (Some _) => []
          | Replied (Some s) None => [OnLogin (Some s)]
          | Replied None None =>
              if String.eqb (mode st) "signup"
              then [Alert confirmNotice] else [OnLogin None]
          end.
Proof.
  unfold submit, handleAuth, request_of.
  destruct (String.eqb (mode st) "signup"); cbn [run];
    match goal with
    | |- context [supabase ?r] => destruct (supabase r) as [[s|] [m|] | m]
    end;
    repeat split; reflexivity.
Qed.

(** Every submit makes exactly one call to the auth service, with the
    typed e-mail and password: sign-up on the sign-up form and sign-in
    otherwise.  Whatever comes back, loading ends switched off, the typed
    fields are untouched and the parent is told of at most one login. *)
Theorem auth_one_request (supabase : AuthRequest -> AuthReply)
    (st : AuthState) :
  requests (submit supabase st)
  = [if String.eqb (mode st) "signup"
     then SignUp (email st) (password st)
     else SignInWithPassword (email st) (password st)]
  /\ loading (state (submit supabase st)) = false
  /\ email (state (submit supabase st)) = email st
  /\ password (state (submit supabase st)) = password st
  /\ length (logins (effects (submit supabase st))) <= 1.
Proof.
  destruct (submit_cases supabase st) as (Hreq & Hstate & Heff).
  rewrite Hreq, Hstate, Heff.
  split; [reflexivity|].
  destruct (supabase (request_of st)) as [[s|] [m|] | m],
    (String.eqb (mode st) "signup"); cbn; repeat split; lia.
Qed.

(** A failed call, whether the service returns an error or the call
    throws, puts the failure's message on the page (when it is not empty),
    logs nobody in, raises no alert and leaves the form in the same
    mode. *)
Theorem auth_failure_shows_error (supabase : AuthRequest -> AuthReply)
    (st : AuthState) (message : string) :
  failure (supabase (request_of st)) = Some message ->
  error (state (submit supabase st)) = Some message
  /\ errorBox (state (submit supabase st))
     = (if Chat.truthy message then Some message else None)
  /\ logins (effects (submit supabase st)) = []
  /\ alerts (effects (submit supabase st)) = []
  /\ mode (state (submit supabase st)) = mode st.
Proof.
  intros Hfail.
  destruct (submit_cases supabase st) as (_ & Hstate & Heff).
  rewrite Hstate, Heff. unfold errorBox.
  destruct (supabase (request_of st)) as [[s|] [m|] | m]; cbn in Hfail;
    try discriminate; injection Hfail as ->;
    repeat split; reflexivity.
Qed.

Lemma auth_failure_shows_error_witness :
  errorBox (state (submit rejecting initial))
  = Some "Invalid login credentials"
  /\ logins (effects (submit rejecting initial)) = [].
Proof.
  destruct (auth_failure_shows_error rejecting initial
              "Invalid login credentials" eq_refl)
    as (_ & Hbox & Hlogins & _).
  split; [exact Hbox | exact Hlogins].
Defined.

(** A successful reply that carries a session reports exactly that
    session to the parent, once; an error left from an earlier attempt is
    cleared, no alert is raised and the mode stays.  Handed to [App] by
    [setSession], the session takes the user off the auth page. *)
Theorem auth_success_logs_in (supabase : AuthRequest -> AuthReply)
    (st : AuthState) (s : Chat.Session) (app : Chat.AppState) :
  supabase (request_of st) = Replied (Some s) None ->
  logins (effects (submit supabase st)) = [Some s]
  /\ alerts (effects (submit supabase st)) = []
  /\ error (state (submit supabase st)) = None
  /\ mode (state (submit supabase st)) = mode st
  /\ Forall (fun login => App.showsAuthPage (App.setSession login app) = false)
       (logins (effects (submit supabase st))).
Proof.
  intros Hreply.
  destruct (submit_cases supabase st) as (_ & Hstate & Heff).
  rewrite Hstate, Heff, Hreply. cbn.
  repeat split. repeat constructor.
Qed.

Lemma auth_success_logs_in_witness :
  logins (effects (submit accepting after_failure))
  = [Some {| Chat.access_token := "token-1" |}]
  /\ error (state (submit accepting after_failure)) = None.
Proof.
  destruct (auth_success_logs_in accepting after_failure
              {| Chat.access_token := "token-1" |} Samples.sample_state eq_refl)
    as (Hlogins & _ & Herror & _).
  split; [exact Hlogins | exact Herror].
Defined.

(** A sign-up that succeeds without a session (the e-mail still has to be
    confirmed) logs nobody in: the notice is raised once, the form goes
    back to sign-in with no error and loading off, so the page then reads
    "Welcome Back" and "Sign In". *)
Theorem signup_awaits_confirmation (supabase : AuthRequest -> AuthReply)
    (st : AuthState) :
  mode st = "signup" ->
  supabase (SignUp (email st) (password st)) = Replied None None ->
  effects (submit supabase st) = [PreventDefault; Alert confirmNotice]
  /\ state (submit supabase st)
     = {| email := email st; password := password st; loading := false;
          error := None; mode := "login" |}
  /\ heading (state (submit supabase st)) = "Welcome Back"
  /\ submitLabel (state (submit supabase st)) = "Sign In".
Proof.
  intros Hmode Hreply.
  destruct (submit_cases supabase st) as (_ & Hstate & Heff).
  unfold request_of in *. rewrite Hmode in *.
  change (String.eqb "signup" "signup") with true in *. cbv iota in *.
  rewrite Hstate, Heff, Hreply. repeat split.
Qed.

Lemma signup_awaits_confirmation_witness :
  alerts (effects (submit unconfirmed signing_up)) = [confirmNotice]
  /\ heading (state (submit unconfirmed signing_up)) = "Welcome Back".
Proof.
  destruct (signup_awaits_confirmation unconfirmed signing_up eq_refl eq_refl)
    as (Heff & _ & Hhead & _).
  split; [now rewrite Heff | exact Hhead].
Defined.

(** A sign-in reply with neither an error nor a session is passed on as
    it is: the parent is handed the missing session, so [App] stays on the
    auth page, and the page shows no error and raises no alert. *)
Theorem signin_without_session (supabase : AuthRequest -> AuthReply)
    (st : AuthState) (app : Chat.AppState) :
  mode st <> "signup" ->
  supabase (SignInWithPassword (email st) (password st)) = Replied None None ->
  logins (effects (submit supabase st)) = [None]
  /\ alerts (effects (submit supabase st)) = []
  /\ errorBox (state (submit supabase st)) = None
  /\ App.showsAuthPage (App.setSession None app) = true.
Proof.
  intros Hmode Hreply. apply String.eqb_neq in Hmode.
  destruct (submit_cases supabase st) as (_ & Hstate & Heff).
  unfold request_of in *. rewrite Hmode in *.
  rewrite Hstate, Heff, Hreply. repeat split.
Qed.

Lemma signin_without_session_witness :
  logins (effects (submit unconfirmed initial)) = [None].
Proof.
  assert (Hmode : mode initial <> "signup") by discriminate.
  destruct (signin_without_session unconfirmed initial Samples.sample_state
              Hmode eq_refl) as (Hlogins & _).
  exact Hlogins.
Defined.

(** The page starts in a valid mode and every handler keeps it valid.  In
    a valid mode the form does what it says: the call is a sign-up exactly
    when the heading reads "Join Rooted AI", an idle button reads "Sign Up"
    exactly then, the link offers the other mode, and following the link
    twice comes back to the same form. *)
Theorem mode_stays_valid (supabase : AuthRequest -> AuthReply)
    (st : AuthState) :
  valid_mode st ->
  valid_mode (state (submit supabase st))
  /\ valid_mode (clickSwitch st)
  /\ clickSwitch (clickSwitch st) = st
  /\ mode (clickSwitch st) <> mode st
  /\ (request_of st = SignUp (email st) (password st)
      <-> heading st = "Join Rooted AI")
  /\ (loading st = false ->
      (request_of st = SignUp (email st) (password st)
       <-> submitLabel st = "Sign Up"))
  /\ (heading st = "Join Rooted AI" <-> switchLabel st = "Sign In").
Proof.
  intros Hvalid.
  destruct (submit_cases supabase st) as (_ & Hstate & _).
  rewrite Hstate. clear Hstate.
  unfold valid_mode, clickSwitch, request_of, heading, submitLabel,
    switchLabel in *.
  destruct st as [e p l err m]. cbn [mode email password loading] in *.
  destruct Hvalid as [-> | ->];
    change (String.eqb "login" "login") with true;
    change (String.eqb "login" "signup") with false;
    change (String.eqb "signup" "login") with false;
    change (String.eqb "signup" "signup") with true;
    cbv iota.
  - split; [|split; [|split; [|split; [|split; [|split]]]]].
    + destruct (supabase _) as [[s|] [msg|] | msg]; cbn; auto.
    + cbn. auto.
    + reflexivity.
    + cbn. discriminate.
    + split; discriminate.
    + intros ->. split; discriminate.
    + split; discriminate.
  - split; [|split; [|split; [|split; [|split; [|split]]]]].
    + destruct (supabase _) as [[s|] [msg|] | msg]; cbn; auto.
    + cbn. auto.
    + reflexivity.
    + cbn. discriminate.
    + split; reflexivity.
    + intros ->. split; reflexivity.
    + split; reflexivity.
Qed.

Lemma mode_stays_valid_witness :
  valid_mode initial
  /\ valid_mode (state (submit accepting initial))
  /\ clickSwitch (clickSwitch initial) = initial.
Proof.
  assert (Hvalid : valid_mode initial) by (left; reflexivity).
  destruct (mode_stays_valid accepting initial Hvalid) as (H1 & _ & H3 & _).
  split; [exact Hvalid | split; [exact H1 | exact H3]].
Defined.

End AuthFacts.
